(** * RuntimeTargetConsole: the console installed by [RuntimeTarget::installConsoleHandler]

    A shallow embedding of
    [packages/react-native/ReactCommon/jsinspector-modern/RuntimeTargetConsole.cpp].

    The C++ file builds a replacement [console] object.  Every method of it is
    a host function made of three nested closures:

    - the method's _body_ (one lambda per method name), which reads and
      updates the shared [ConsoleState] and hands messages to the
      [RuntimeTargetDelegate];
    - [delegateExecutorSync], which runs the body only when the weak
      reference to the [RuntimeTarget] can still be locked;
    - [forwardToOriginalConsole], which afterwards calls the method of the
      same name on the console object that was installed before.

    The embedding keeps this structure.  Code that runs inside the JavaScript
    engine (the conversion of an object to a string, the property look-up on
    the original console, the original console's functions) is represented
    by its outcome, a returned value or a thrown error, and is taken from a
    [Runtime] record; such code is assumed not to call back into the
    installed console while it runs. *)

From Stdlib Require Import ZArith NArith String List Floats DecimalString Lia.
From stdpp Require Import gmap strings.

Local Open Scope Z_scope.

(** ** JavaScript values as the file sees them *)

(** A [jsi::Object] is a handle to an object of the engine's heap. *)
Definition Object := N.

(** [jsi::Value], with the kinds that the file tells apart ([isUndefined],
    [isNull], [isBool], [isNumber], [isSymbol], [isObject], [isString]).
    A number is an IEEE 754 binary64 [double]; a string is the UTF-8 text
    that [utf8()] returns; a symbol carries its description. *)
Inductive Value : Type :=
  | VUndefined
  | VNull
  | VBool (b : bool)
  | VNumber (m : float)
  | VSymbol (description : string)
  | VString (s : string)
  | VObject (o : Object).

Definition isUndefined (v : Value) : bool :=
  match v with VUndefined => true | _ => false end.
Definition isNull (v : Value) : bool :=
  match v with VNull => true | _ => false end.
Definition isBool (v : Value) : bool :=
  match v with VBool _ => true | _ => false end.
Definition isNumber (v : Value) : bool :=
  match v with VNumber _ => true | _ => false end.
Definition isSymbol (v : Value) : bool :=
  match v with VSymbol _ => true | _ => false end.
Definition isObject (v : Value) : bool :=
  match v with VObject _ => true | _ => false end.
Definition isString (v : Value) : bool :=
  match v with VString _ => true | _ => false end.

(** The accessors are only called under the matching test, as in the C++. *)
Definition getBool (v : Value) : bool :=
  match v with VBool b => b | _ => false end.
Definition getNumber (v : Value) : float :=
  match v with VNumber m => m | _ => PrimFloat.zero end.
Definition getString (v : Value) : string :=
  match v with VString s => s | _ => EmptyString end.

(** A call into the engine either returns or throws a [jsi::JSError], which
    carries the thrown JavaScript value. *)
Definition JSError := Value.

Inductive Outcome (A : Type) : Type :=
  | Returns (a : A)
  | Throws (e : JSError).
Arguments Returns {A} a.
Arguments Throws {A} e.

(** What the file asks of the JavaScript engine. *)
Record Runtime : Type := {
  (** [String(m)] for a number [m] *)
  numberToString : float -> string;
  (** [String(o)] for an object [o]: runs the object's own conversion,
      which may throw *)
  objectToString : Object -> Outcome string;
  (** [o.getProperty(runtime, name)]: may run a getter, which may throw *)
  getProperty : Object -> string -> Outcome Value;
  (** [o.isFunction(runtime)] *)
  isFunction : Object -> bool;
  (** [f.callWithThis(runtime, jsThis, args, count)] *)
  callWithThis : Object -> Object -> list Value -> Outcome Value;
  (** The script's call [console.name(args)] for a name that is no own
      property of the installed console: the engine looks the name up in the
      prototype, which is the original console when one was captured and an
      empty object otherwise, and calls what it finds, or throws a
      [TypeError].  No code of the file runs. *)
  callInherited : option Object -> string -> list Value -> Outcome Value
}.

(** Modelled from the spec: [jsi::Value::toString] is declared in jsi.h,
    which is not part of the sources at hand.  The spec says that the
    value is coerced to a string; the coercion is JavaScript's [String(v)]. *)
Definition Value_toString (rt : Runtime) (v : Value) : Outcome string :=
  match v with
  | VUndefined => Returns "undefined"%string
  | VNull => Returns "null"%string
  | VBool b => Returns (if b then "true" else "false")%string
  | VNumber m => Returns (numberToString rt m)
  | VSymbol d => Returns ("Symbol(" +:+ d +:+ ")")
  | VString s => Returns s
  | VObject o => objectToString rt o
  end.

(** ** The C++ library functions the file calls *)

(** The range of [int]. *)
Definition INT_MIN : Z := -2147483648.
Definition INT_MAX : Z := 2147483647.

(** [it->second++] on an [int].  Signed overflow is undefined in C++; the
    model takes the two's complement result. *)
Definition int_wrap (z : Z) : Z :=
  (z + 2147483648) mod 4294967296 - 2147483648.

(** [std::to_string(int)]: the decimal digits, with a minus sign in front
    of a negative number. *)
Definition std_to_string_int (n : Z) : string :=
  NilZero.string_of_int (Z.to_int n).

Definition sign_prefix (negative : bool) : string :=
  if negative then "-"%string else ""%string.

(** The quotient [a / b], rounded to the nearest integer, ties to even. *)
Definition round_half_even_div (a b : Z) : Z :=
  let q := a / b in
  match (2 * (a mod b) ?= b) with
  | Lt => q
  | Gt => q + 1
  | Eq => if Z.even q then q else q + 1
  end.

(** The six digits after the decimal point. *)
Definition six_digits (r : Z) : string :=
  match std_to_string_int (1000000 + r) with
  | String _ rest => rest
  | EmptyString => EmptyString
  end.

(** [std::to_string(double)] is [sprintf] with ["%f"]: the exact value of the
    double rounded to six digits after the decimal point.  ([Prim2SF]
    decomposes a finite non-zero double into sign, mantissa [m] and exponent
    [e], its absolute value being [m * 2^e].  Rocq's doubles have one NaN;
    the C library prints a NaN as ["nan"] or ["-nan"].) *)
Definition std_to_string_double (x : float) : string :=
  match Prim2SF x with
  | S754_nan => "nan"%string
  | S754_infinity s => sign_prefix s +:+ "inf"
  | S754_zero s => sign_prefix s +:+ "0.000000"
  | S754_finite s m e =>
      let q := round_half_even_div
                 (Z.pos m * 1000000 * 2 ^ Z.max e 0) (2 ^ Z.max (- e) 0) in
      sign_prefix s +:+ std_to_string_int (q / 1000000) +:+ "."
        +:+ six_digits (q mod 1000000)
  end.

(** ** Console messages and console state *)

(** [ConsoleAPIType], the kinds the file uses. *)
Inductive ConsoleAPIType : Type :=
  | kLog | kDebug | kInfo | kError | kWarning
  | kDir | kDirXML | kTable | kTrace
  | kStartGroup | kStartGroupCollapsed | kEndGroup
  | kClear | kAssert | kTimeEnd | kCount.

(** [ConsoleMessage], built in the file as [{timestampMs, type, args}]. *)
Record ConsoleMessage : Type := {
  msg_timestamp : float;
  msg_type : ConsoleAPIType;
  msg_args : list Value
}.

(** [struct ConsoleState]: [countMap] maps a label to an [int], [timerTable]
    maps a label to the [double] timestamp at which the timer started. *)
Record ConsoleState : Type := {
  countMap : gmap string Z;
  timerTable : gmap string float
}.

(** [std::make_shared<ConsoleState>()] *)
Definition fresh_state : ConsoleState :=
  {| countMap := ∅; timerTable := ∅ |}.

(** ** What a call does besides changing the state *)

Inductive Event : Type :=
  (** [runtimeTargetDelegate.addConsoleMessage(runtime, m)] *)
  | EvAddConsoleMessage (m : ConsoleMessage)
  (** [selfExecutor(...)] called with the task that owns the strong
      reference [self] *)
  | EvSelfExecutor
  (** [self] still holds the strong reference when its scope is left on the
      JavaScript thread, and is destroyed there *)
  | EvSelfReleasedInline
  (** [func.callWithThis(runtime, jsThis, args, count)] on a function of the
      original console *)
  | EvOriginalCall (func : Object) (jsThis : Object) (args : list Value).

(** The result of running a piece of the file: how it ended, the state it
    left, and what it did, in order.  A thrown error leaves the state as it
    was when the error was thrown. *)
Record Result (A : Type) : Type := {
  outcome : Outcome A;
  final_state : ConsoleState;
  events : list Event
}.
Arguments outcome {A} r.
Arguments final_state {A} r.
Arguments events {A} r.

Definition M (A : Type) : Type := ConsoleState -> Result A.

Definition ret {A} (a : A) : M A :=
  fun st => {| outcome := Returns a; final_state := st; events := [] |}.

Definition bind {A B} (m : M A) (k : A -> M B) : M B :=
  fun st =>
    let r := m st in
    match outcome r with
    | Returns a =>
        let r' := k a (final_state r) in
        {| outcome := outcome r';
           final_state := final_state r';
           events := events r ++ events r' |}
    | Throws e =>
        {| outcome := Throws e;
           final_state := final_state r;
           events := events r |}
    end.

Notation "x <- m ;; k" := (bind m (fun x => k))
  (at level 100, m at next level, right associativity).
Notation "m ;;; k" := (bind m (fun _ => k))
  (at level 100, right associativity).

(** An engine call inside the monad. *)
Definition lift {A} (o : Outcome A) : M A :=
  fun st => {| outcome := o; final_state := st; events := [] |}.

Definition get_state : M ConsoleState :=
  fun st => {| outcome := Returns st; final_state := st; events := [] |}.

Definition put_state (st' : ConsoleState) : M unit :=
  fun _ => {| outcome := Returns tt; final_state := st'; events := [] |}.

Definition emit (e : Event) : M unit :=
  fun st => {| outcome := Returns tt; final_state := st; events := [e] |}.

(** The messages handed to the delegate, in order. *)
Definition messages_of (evs : list Event) : list ConsoleMessage :=
  flat_map (fun e => match e with EvAddConsoleMessage m => [m] | _ => [] end) evs.

Definition messages {A} (r : Result A) : list ConsoleMessage :=
  messages_of (events r).

(** ** The file's own code *)

(** [kForwardingConsoleMethods]: the methods that only emit a message. *)
Definition kForwardingConsoleMethods : list (string * ConsoleAPIType) :=
  [ ("clear", kClear);
    ("debug", kDebug);
    ("dir", kDir);
    ("dirxml", kDirXML);
    ("error", kError);
    ("group", kStartGroup);
    ("groupCollapsed", kStartGroupCollapsed);
    ("groupEnd", kEndGroup);
    ("info", kInfo);
    ("log", kLog);
    ("table", kTable);
    ("trace", kTrace);
    ("warn", kWarning) ]%string.

(** [s.empty()] *)
Definition empty (s : string) : bool :=
  match s with EmptyString => true | String _ _ => false end.

(** [toBoolean(runtime, val)].  The last [return false] stands behind
    [assert(false && "All cases should be covered")]. *)
Definition toBoolean (val : Value) : bool :=
  if isUndefined val || isNull val then false
  else if isBool val then getBool val
  else if isNumber val then
    let m := getNumber val in
    negb (PrimFloat.eqb m PrimFloat.zero) && negb (PrimFloat.is_nan m)
  else if isSymbol val || isObject val then true
  else if isString val then
    let s := getString val in
    negb (empty s)
  else false.

(** The loop [for (size_t i = first; i != count; ++i)
    vec.emplace_back(runtime, args[i]);], where [rest] holds [args[first]]
    to [args[count - 1]]. *)
Fixpoint emplace_back_args (vec : list Value) (rest : list Value) : list Value :=
  match rest with
  | [] => vec
  | a :: rest' => emplace_back_args (vec ++ [a]) rest'
  end.

(** The conditions under which one call of a console method runs: the
    value that [getTimestampMs()] returns, whether [selfWeak.lock()] still
    yields a reference to the [RuntimeTarget], and whether the
    [std::function] [body] that the host function's closure holds still has
    its target.  The closure is [mutable] and gives the lambda that it
    passes to [delegateExecutorSync] its [body] by [std::move] at every
    call, so only the first call of a host function is sure to find the
    body in place: the C++ standard leaves the state of a moved-from
    [std::function] unspecified.  (libstdc++ and the MSVC library leave it
    empty; libc++ copies a target that it keeps in the function's own
    buffer, as these bodies are, and leaves the source as it was.) *)
Record CallEnv : Type := {
  now : float;
  selfAlive : bool;
  bodyInPlace : bool
}.

(** The body of the call runs: the target is alive and the body is in
    place. *)
Definition body_runs (env : CallEnv) : bool :=
  selfAlive env && bodyInPlace env.

(** The error of a call of an empty [std::function]: the C++ exception
    [std::bad_function_call], which the engine hands to the script as a
    JavaScript error.  The model names the error by the exception. *)
Definition bad_function_call : JSError := VString "std::bad_function_call".

(** A method body, as passed to [installConsoleMethod]: it receives the
    arguments ([args] and [count] are one list here) and the timestamp, has
    the delegate and the [ConsoleState] at hand, and returns nothing. *)
Definition Body : Type := list Value -> float -> M unit.

(** A host function of the installed console.  ([thisVal] is not used.) *)
Definition HostFunction : Type := CallEnv -> list Value -> M Value.

(** [m], and event [e] after it when [m] ends by throwing: a destructor
    that runs while the stack unwinds. *)
Definition on_unwind {A} (m : M A) (e : Event) : M A :=
  fun st =>
    let r := m st in
    match outcome r with
    | Returns _ => r
    | Throws _ =>
        {| outcome := outcome r;
           final_state := final_state r;
           events := events r ++ [e] |}
    end.

Section Console.

Variable rt : Runtime.

Definition addConsoleMessage (timestampMs : float) (type : ConsoleAPIType)
    (vec : list Value) : M unit :=
  emit (EvAddConsoleMessage
          {| msg_timestamp := timestampMs; msg_type := type; msg_args := vec |}).

(** The statements with which the bodies of [count], [countReset], [time],
    [timeEnd] and [timeLog] all start:
    [std::string label = "default";
     if (count > 0 && !args[0].isUndefined())
       label = args[0].toString(runtime).utf8(runtime);] *)
Definition label_of_args (args : list Value) : Outcome string :=
  match args with
  | args0 :: _ =>
      if negb (isUndefined args0) then Value_toString rt args0
      else Returns "default"%string
  | [] => Returns "default"%string
  end.

(** [console.count] *)
Definition body_count : Body := fun args timestampMs =>
  label <- lift (label_of_args args) ;;
  state <- get_state ;;
  let second :=
    match countMap state !! label with
    | None => 1
    | Some c => int_wrap (c + 1)
    end in
  put_state {| countMap := <[label := second]> (countMap state);
               timerTable := timerTable state |} ;;;
  addConsoleMessage timestampMs kCount
    [VString (label +:+ ": " +:+ std_to_string_int second)].

(** [console.countReset] *)
Definition body_countReset : Body := fun args timestampMs =>
  label <- lift (label_of_args args) ;;
  state <- get_state ;;
  match countMap state !! label with
  | None =>
      addConsoleMessage timestampMs kWarning
        [VString ("Count for '" +:+ label +:+ "' does not exist")]
  | Some _ =>
      put_state {| countMap := <[label := 0]> (countMap state);
                   timerTable := timerTable state |}
  end.

(** [console.time] *)
Definition body_time : Body := fun args timestampMs =>
  label <- lift (label_of_args args) ;;
  state <- get_state ;;
  match timerTable state !! label with
  | None =>
      put_state {| countMap := countMap state;
                   timerTable := <[label := timestampMs]> (timerTable state) |}
  | Some _ =>
      addConsoleMessage timestampMs kWarning
        [VString ("Timer '" +:+ label +:+ "' already exists")]
  end.

(** [console.timeEnd] *)
Definition body_timeEnd : Body := fun args timestampMs =>
  label <- lift (label_of_args args) ;;
  state <- get_state ;;
  match timerTable state !! label with
  | None =>
      addConsoleMessage timestampMs kWarning
        [VString ("Timer '" +:+ label +:+ "' does not exist")]
  | Some second =>
      let vec :=
        [VString (label +:+ ": "
                    +:+ std_to_string_double (PrimFloat.sub timestampMs second)
                    +:+ " ms")] in
      put_state {| countMap := countMap state;
                   timerTable := delete label (timerTable state) |} ;;;
      addConsoleMessage timestampMs kTimeEnd vec
  end.

(** [console.timeLog] *)
Definition body_timeLog : Body := fun args timestampMs =>
  label <- lift (label_of_args args) ;;
  state <- get_state ;;
  match timerTable state !! label with
  | None =>
      addConsoleMessage timestampMs kWarning
        [VString ("Timer '" +:+ label +:+ "' does not exist")]
  | Some second =>
      let vec :=
        [VString (label +:+ ": "
                    +:+ std_to_string_double (PrimFloat.sub timestampMs second)
                    +:+ " ms")] in
      let vec :=
        if (1 <? length args)%nat then emplace_back_args vec (skipn 1 args)
        else vec in
      addConsoleMessage timestampMs kLog vec
  end.

(** [console.assert].  [data] is the [std::deque]. *)
Definition body_assert : Body := fun args timestampMs =>
  if (1 <=? length args)%nat && toBoolean (nth 0 args VUndefined) then ret tt
  else
    let data :=
      if (1 <? length args)%nat then emplace_back_args [] (skipn 1 args)
      else [] in
    let data :=
      match data with
      | [] => [VString "Assertion failed"]
      | front :: rest =>
          if isString front then
            VString ("Assertion failed: " +:+ getString front) :: rest
          else VString "Assertion failed" :: data
      end in
    addConsoleMessage timestampMs kAssert data.

(** The body installed for each entry of [kForwardingConsoleMethods]. *)
Definition body_forwarding (type : ConsoleAPIType) : Body := fun args timestampMs =>
  let argsVec := emplace_back_args [] args in
  addConsoleMessage timestampMs type argsVec.

(** [delegateExecutorSync(func)].  When the lock succeeds, [func] runs with
    the delegate; then [self] is moved into the task given to
    [selfExecutor].  When [func] throws, that statement is not reached and
    [self] is destroyed where it stands. *)
Definition delegateExecutorSync (env : CallEnv) (func : M unit) : M unit :=
  if selfAlive env then
    on_unwind (func ;;; emit EvSelfExecutor) EvSelfReleasedInline
  else ret tt.

(** The closure returned by [forwardToOriginalConsole(methodName, innerFn)]. *)
Definition forwardToOriginalConsole (originalConsole : option Object)
    (methodName : string) (innerFn : list Value -> M Value)
    : list Value -> M Value :=
  fun args =>
    retVal <- innerFn args ;;
    match originalConsole with
    | Some oc =>
        val <- lift (getProperty rt oc methodName) ;;
        match val with
        | VObject obj =>
            if isFunction rt obj then
              emit (EvOriginalCall obj oc args) ;;;
              lift (callWithThis rt obj oc args) ;;;
              ret tt
            else ret tt
        | _ => ret tt
        end
    | None => ret tt
    end ;;;
    ret retVal.

(** The inner function that [installConsoleMethod] builds around [body]:
    it takes the timestamp, runs the body through [delegateExecutorSync]
    and returns [jsi::Value::undefined()].

    The lambda handed to [delegateExecutorSync] gets its [body] by
    [std::move] from the closure.  When the closure's [body] still has its
    target, so has the lambda's, and calling it runs the body.  When an
    earlier call has left the closure's [body] empty, the lambda's is empty
    too, and calling it throws [std::bad_function_call]. *)
Definition inner_function (body : Body) (env : CallEnv) : list Value -> M Value :=
  fun args =>
    let timestampMs := now env in
    delegateExecutorSync env
      (if bodyInPlace env then body args timestampMs
       else lift (Throws bad_function_call)) ;;;
    ret VUndefined.

(** The host function that [installConsoleMethod(methodName, body)] creates. *)
Definition console_method (originalConsole : option Object)
    (methodName : string) (body : Body) : HostFunction :=
  fun env =>
    forwardToOriginalConsole originalConsole methodName (inner_function body env).

(** [installConsoleMethod(methodName, body)]: [console.setProperty]. *)
Definition installConsoleMethod (originalConsole : option Object)
    (console : gmap string HostFunction) (methodName : string) (body : Body)
    : gmap string HostFunction :=
  <[methodName := console_method originalConsole methodName body]> console.

(** The original console that the handler captures: the global [console]
    when it is an object. *)
Definition originalConsole_of (originalConsoleVal : Value) : option Object :=
  match originalConsoleVal with
  | VObject o => Some o
  | _ => None
  end.

(** [RuntimeTarget::installConsoleHandler], given the value of the global
    [console] before: the own properties of the new console object.
    (Properties that the file does not install are found through the
    prototype and are no code of this file.) *)
Definition installConsoleHandler (originalConsoleVal : Value)
    : gmap string HostFunction :=
  let originalConsole := originalConsole_of originalConsoleVal in
  let install := installConsoleMethod originalConsole in
  let console := ∅ in
  let console := install console "count"%string body_count in
  let console := install console "countReset"%string body_countReset in
  let console := install console "time"%string body_time in
  let console := install console "timeEnd"%string body_timeEnd in
  let console := install console "timeLog"%string body_timeLog in
  let console := install console "assert"%string body_assert in
  fold_left
    (fun console entry => install console (fst entry) (body_forwarding (snd entry)))
    kForwardingConsoleMethods console.

(** A script calls [console.name(args)].  A name that the file did not
    install does not reach its code: the call is the engine's call of what
    the console inherits. *)
Definition invoke (originalConsoleVal : Value) (name : string)
    (env : CallEnv) (args : list Value) : M Value :=
  match (installConsoleHandler originalConsoleVal !! name : option HostFunction) with
  | Some f => f env args
  | None => lift (callInherited rt (originalConsole_of originalConsoleVal) name args)
  end.

(** *** Sequences of calls *)

(** One call of a console method by the script. *)
Record Call : Type := {
  call_name : string;
  call_env : CallEnv;
  call_args : list Value
}.

Definition run_call (originalConsoleVal : Value) (c : Call) : M Value :=
  invoke originalConsoleVal (call_name c) (call_env c) (call_args c).

(** The state that a sequence of calls leaves.  A call that throws leaves
    its state to the next one. *)
Fixpoint run_calls (originalConsoleVal : Value) (calls : list Call)
    (st : ConsoleState) : ConsoleState :=
  match calls with
  | [] => st
  | c :: calls' =>
      run_calls originalConsoleVal calls'
        (final_state (run_call originalConsoleVal c st))
  end.

(** A call whose body runs: the [RuntimeTarget] is alive and the body is
    in place. *)
Definition live (timestampMs : float) : CallEnv :=
  {| now := timestampMs; selfAlive := true; bodyInPlace := true |}.

(** A call after the [RuntimeTarget] has been destroyed. *)
Definition detached (timestampMs : float) : CallEnv :=
  {| now := timestampMs; selfAlive := false; bodyInPlace := true |}.

(** The call is a call of the method [name] whose body runs and whose
    label is [L]. *)
Definition calls_with_label (name : string) (L : string) (c : Call) : bool :=
  String.eqb (call_name c) name
  && body_runs (call_env c)
  && match label_of_args (call_args c) with
     | Returns l => String.eqb l L
     | Throws _ => false
     end.

(** The number of calls [count(L)] in a sequence of calls. *)
Definition count_calls (L : string) (calls : list Call) : nat :=
  length (List.filter (calls_with_label "count" L) calls).

(** The bodies in the order in which the handler installs them. *)
Definition method_bodies : list (string * Body) :=
  [ ("count", body_count);
    ("countReset", body_countReset);
    ("time", body_time);
    ("timeEnd", body_timeEnd);
    ("timeLog", body_timeLog);
    ("assert", body_assert) ]%string
  ++ map (fun entry => (fst entry, body_forwarding (snd entry)))
       kForwardingConsoleMethods.

End Console.

(** ** A script on an installation *)

(** A call as the script makes it: which method, when, whether the
    [RuntimeTarget] is still there, and the arguments.  Whether the body of
    the host function is in place is not the script's to say: it follows
    from the calls made before. *)
Record ScriptCall : Type := {
  script_name : string;
  script_time : float;
  script_alive : bool;
  script_args : list Value
}.

(** An installation: the shared [ConsoleState], and the names of the host
    functions that have been called, whose closures have moved their [body]
    out. *)
Record Installation : Type := {
  console_state : ConsoleState;
  moved_out : gset string
}.

(** The installation after [installConsoleHandler]. *)
Definition fresh_installation : Installation :=
  {| console_state := fresh_state; moved_out := ∅ |}.

(** The conditions of a call on an installation.  [keepsTarget] says what
    the standard library does to a moved-from [std::function]: whether it
    keeps its target.  The body is in place at the first call of a host
    function, and at later calls when the library keeps the target. *)
Definition env_of (keepsTarget : bool) (i : Installation) (c : ScriptCall) : CallEnv :=
  {| now := script_time c;
     selfAlive := script_alive c;
     bodyInPlace := keepsTarget || negb (bool_decide (script_name c ∈ moved_out i)) |}.

(** The call on the installation. *)
Definition script_call (rt : Runtime) (originalConsoleVal : Value)
    (keepsTarget : bool) (c : ScriptCall) (i : Installation) : Result Value :=
  invoke rt originalConsoleVal (script_name c) (env_of keepsTarget i c)
    (script_args c) (console_state i).

(** The installation after the call: the closure of the host function
    has moved its body, whether or not the target was alive. *)
Definition after_call (rt : Runtime) (originalConsoleVal : Value)
    (keepsTarget : bool) (c : ScriptCall) (i : Installation) : Installation :=
  {| console_state := final_state (script_call rt originalConsoleVal keepsTarget c i);
     moved_out := {[script_name c]} ∪ moved_out i |}.

(** The installation after a sequence of calls. *)
Fixpoint run_script (rt : Runtime) (originalConsoleVal : Value)
    (keepsTarget : bool) (calls : list ScriptCall) (i : Installation) : Installation :=
  match calls with
  | [] => i
  | c :: calls' =>
      run_script rt originalConsoleVal keepsTarget calls'
        (after_call rt originalConsoleVal keepsTarget c i)
  end.

(** The call of the script as a call that finds its body in place. *)
Definition in_place (c : ScriptCall) : Call :=
  {| call_name := script_name c;
     call_env := {| now := script_time c;
                    selfAlive := script_alive c;
                    bodyInPlace := true |};
     call_args := script_args c |}.

(** A call by the script while the target is alive. *)
Definition live_call (name : string) (timestampMs : float) (args : list Value)
    : ScriptCall :=
  {| script_name := name;
     script_time := timestampMs;
     script_alive := true;
     script_args := args |}.

(** ** The behaviour in the words of the specification *)

(** The coercion rules: undefined and null are false, a boolean is itself,
    a number is false iff it is zero or NaN, a symbol and an object are
    true, a string is false iff it is empty. *)
Definition truthy (v : Value) : bool :=
  match v with
  | VUndefined | VNull => false
  | VBool b => b
  | VNumber m => negb (PrimFloat.is_zero m || PrimFloat.is_nan m)
  | VSymbol _ | VObject _ => true
  | VString s => negb (String.eqb s "")
  end.

(** The body of an assertion message, from the arguments after the first:
    an empty list becomes ["Assertion failed"]; a first element that is a
    string is replaced by ["Assertion failed: "] followed by it; otherwise
    ["Assertion failed"] is put in front. *)
Definition assertion_body (rest : list Value) : list Value :=
  match rest with
  | [] => [VString "Assertion failed"]
  | VString s :: rest' => VString ("Assertion failed: " +:+ s) :: rest'
  | first :: rest' => VString "Assertion failed" :: first :: rest'
  end.

(** A message whose body is the single string [text]. *)
Definition text_message (timestampMs : float) (type : ConsoleAPIType)
    (text : string) : ConsoleMessage :=
  {| msg_timestamp := timestampMs; msg_type := type; msg_args := [VString text] |}.

(** ["<L>: <elapsed> ms"], the elapsed time being the difference of two
    doubles, printed by [std::to_string]. *)
Definition elapsed_text (L : string) (t1 t0 : float) : string :=
  L +:+ ": " +:+ std_to_string_double (PrimFloat.sub t1 t0) +:+ " ms".

(** The names under which the handler installs a method. *)
Definition label_method_names : list string :=
  [ "count"; "countReset"; "time"; "timeEnd"; "timeLog" ]%string.

Definition console_method_names : list string :=
  label_method_names ++ [ "assert"%string ] ++ map fst kForwardingConsoleMethods.

(** The forwarding step: the function of the original console that is
    called, if any.  There is one when an original console was captured and
    its property of the same name is an object that is a function; the
    look-up of the property may throw. *)
Definition forwarding_target (rt : Runtime) (originalConsole : option Object)
    (methodName : string) : Outcome (option Object) :=
  match originalConsole with
  | None => Returns None
  | Some oc =>
      match getProperty rt oc methodName with
      | Throws e => Throws e
      | Returns (VObject obj) =>
          if isFunction rt obj then Returns (Some obj) else Returns None
      | Returns _ => Returns None
      end
  end.

(** The error with which the forwarding step ends, if it ends with one:
    thrown by the look-up of the property or by the original function. *)
Definition forwarding_error (rt : Runtime) (originalConsole : option Object)
    (methodName : string) (args : list Value) : option JSError :=
  match originalConsole with
  | None => None
  | Some oc =>
      match forwarding_target rt originalConsole methodName with
      | Throws e => Some e
      | Returns None => None
      | Returns (Some obj) =>
          match callWithThis rt obj oc args with
          | Throws e => Some e
          | Returns _ => None
          end
      end
  end.

(** The calls of the original console that the forwarding step makes. *)
Definition forwarding_events (rt : Runtime) (originalConsole : option Object)
    (methodName : string) (args : list Value) : list Event :=
  match originalConsole with
  | None => []
  | Some oc =>
      match forwarding_target rt originalConsole methodName with
      | Returns (Some obj) => [EvOriginalCall obj oc args]
      | _ => []
      end
  end.

(** The error with which the body ends, if it ends with one: the body runs
    only while the target is alive and the body is in place, and only the
    conversion of the label to a string can throw. *)
Definition label_error (rt : Runtime) (methodName : string) (env : CallEnv)
    (args : list Value) : option JSError :=
  if body_runs env && bool_decide (methodName ∈ label_method_names) then
    match label_of_args rt args with
    | Throws e => Some e
    | Returns _ => None
    end
  else None.

(** The timer table that the body of the method [name] leaves: [time] adds
    an entry for its label when there is none, [timeEnd] removes the entry
    of its label, and no other method touches the table. *)
Definition timerTable_after (rt : Runtime) (name : string) (args : list Value)
    (timestampMs : float) (st : ConsoleState) : gmap string float :=
  match label_of_args rt args with
  | Returns l =>
      if String.eqb name "time" then
        match timerTable st !! l with
        | None => <[l := timestampMs]> (timerTable st)
        | Some _ => timerTable st
        end
      else if String.eqb name "timeEnd" then delete l (timerTable st)
      else timerTable st
  | Throws _ => timerTable st
  end.

(** The counters that the body of the method [name] leaves: [count] adds
    one to the counter of its label, or sets it to 1 when there is none,
    [countReset] sets the counter of its label to 0 when there is one, and
    no other method touches the counters. *)
Definition countMap_after (rt : Runtime) (name : string) (args : list Value)
    (st : ConsoleState) : gmap string Z :=
  match label_of_args rt args with
  | Returns l =>
      if String.eqb name "count" then
        match countMap st !! l with
        | None => <[l := 1]> (countMap st)
        | Some c => <[l := int_wrap (c + 1)]> (countMap st)
        end
      else if String.eqb name "countReset" then
        match countMap st !! l with
        | None => countMap st
        | Some _ => <[l := 0]> (countMap st)
        end
      else countMap st
  | Throws _ => countMap st
  end.

(** The call is a call of [timeEnd] for the label [l] whose body runs. *)
Definition ends_timer (rt : Runtime) (l : string) (c : Call) : Prop :=
  call_name c = "timeEnd"%string
  /\ selfAlive (call_env c) = true
  /\ label_of_args rt (call_args c) = Returns l.

(** ** A runtime for the examples *)

(** [String(m)] for the numbers of the examples: NaN, the infinities, zero
    and the integers below [2^53] are printed as JavaScript prints them.
    (Other numbers do not occur in the examples; they are printed with six
    decimals.) *)
Definition example_numberToString (m : float) : string :=
  match Prim2SF m with
  | S754_nan => "NaN"%string
  | S754_infinity s => sign_prefix s +:+ "Infinity"
  | S754_zero _ => "0"%string
  | S754_finite s mant e =>
      if (0 <=? e) && (Z.pos mant * 2 ^ e <? 2 ^ 53) then
        sign_prefix s +:+ std_to_string_int (Z.pos mant * 2 ^ e)
      else if (e <? 0) && (Z.pos mant mod 2 ^ (- e) =? 0) then
        sign_prefix s +:+ std_to_string_int (Z.pos mant / 2 ^ (- e))
      else std_to_string_double m
  end.

(** The original console of the examples is object 1.  Its [log] is the
    function 2, which returns 7; its [error] is the function 3, which throws
    ["boom"]; its [info] is the number 1; the look-up of its [trace] throws
    ["getter"]; it has no other property.  The conversion of object 9 to a
    string throws ["no string"]; every other object prints as
    ["[object Object]"].  A call of a name that the installed console only
    inherits throws a [TypeError]: the original console has no function
    under any such name. *)
Definition example_runtime : Runtime :=
  {| numberToString := example_numberToString;
     objectToString := fun o =>
       if (o =? 9)%N then Throws (VString "no string")
       else Returns "[object Object]"%string;
     getProperty := fun o name =>
       if (o =? 1)%N then
         if String.eqb name "log" then Returns (VObject 2%N)
         else if String.eqb name "error" then Returns (VObject 3%N)
         else if String.eqb name "info" then Returns (VNumber 1%float)
         else if String.eqb name "trace" then Throws (VString "getter")
         else Returns VUndefined
       else Returns VUndefined;
     isFunction := fun o => (o =? 2)%N || (o =? 3)%N;
     callWithThis := fun f jsThis args =>
       if (f =? 3)%N then Throws (VString "boom") else Returns (VNumber 7%float);
     callInherited := fun originalConsole name args =>
       Throws (VString "TypeError") |}.

(** ** Claims of the specification that the code does not meet, as stated *)

(** The message of the [k]-th call [count(L)]. *)
Definition count_message (timestampMs : float) (L : string) (k : Z) : ConsoleMessage :=
  text_message timestampMs kCount (L +:+ ": " +:+ std_to_string_int k).

(** "No error arising from the forwarding step ever propagates back as a
    failure of the intercepted call": when the inner function returns, so
    does the call. *)
Definition forwarding_never_fails_as_stated : Prop :=
  forall rt originalConsoleVal name body env args st v,
    In (name, body) (method_bodies rt) ->
    outcome (inner_function body env args st) = Returns v ->
    exists v', outcome (invoke rt originalConsoleVal name env args st) = Returns v'.

(** "For every intercepted call made after the owning session handle has
    been invalidated, no console message is emitted and the call completes
    normally without raising any error." *)
Definition detached_completes_as_stated : Prop :=
  forall rt originalConsoleVal name env args st,
    In name console_method_names ->
    selfAlive env = false ->
    let r := invoke rt originalConsoleVal name env args st in
    messages r = [] /\ exists v, outcome r = Returns v.

(** "Every installed console method returns the undefined value on every
    invocation, regardless of the call's arguments." *)
Definition returns_undefined_as_stated : Prop :=
  forall rt originalConsoleVal name env args st,
    In name console_method_names ->
    outcome (invoke rt originalConsoleVal name env args st) = Returns VUndefined.

(** ** Notions for further properties of the code *)

(** The value of the counter of [L]; a label without an entry has not been
    counted. *)
Definition counter_value (st : ConsoleState) (L : string) : Z :=
  default 0 (countMap st !! L).

(** The event is a call of a function of the original console. *)
Definition is_original_call (e : Event) : bool :=
  match e with
  | EvOriginalCall _ _ _ => true
  | _ => false
  end.

(** * Proofs *)

(** ** The library models on examples *)

Example std_to_string_double_12_5 :
  std_to_string_double (PrimFloat.sub 1012.5%float 1000%float) = "12.500000"%string.
Proof. vm_compute. reflexivity. Qed.

Example std_to_string_double_rounds :
  std_to_string_double 0.0078125%float = "0.007812"%string
  /\ std_to_string_double 0.0234375%float = "0.023438"%string
  /\ std_to_string_double (-1234.5)%float = "-1234.500000"%string.
Proof. repeat split; vm_compute; reflexivity. Qed.

Example std_to_string_int_neg : std_to_string_int (-42) = "-42"%string.
Proof. reflexivity. Qed.

Example int_wrap_max : int_wrap (INT_MAX + 1) = INT_MIN.
Proof. reflexivity. Qed.

Lemma int_wrap_small z : INT_MIN <= z <= INT_MAX -> int_wrap z = z.
Proof.
  unfold int_wrap, INT_MIN, INT_MAX. intros Hz.
  rewrite Z.mod_small by lia. lia.
Qed.

(** ** The loops and the monad *)

Lemma emplace_back_args_app vec rest : emplace_back_args vec rest = vec ++ rest.
Proof.
  revert vec. induction rest as [|a rest IH]; intros vec; simpl.
  - by rewrite app_nil_r.
  - rewrite IH. by rewrite <- app_assoc.
Qed.

Lemma messages_of_app evs1 evs2 :
  messages_of (evs1 ++ evs2) = messages_of evs1 ++ messages_of evs2.
Proof. unfold messages_of. apply flat_map_app. Qed.

(** ** The wrappers around a body *)

Lemma forwarding_events_no_message rt oc name args :
  messages_of (forwarding_events rt oc name args) = [].
Proof.
  unfold forwarding_events. destruct oc as [o|]; [|done].
  by destruct (forwarding_target rt (Some o) name) as [[f|]|].
Qed.

(** What [delegateExecutorSync] and the inner function make of a body. *)
Lemma inner_function_unfold body env args st :
  inner_function body env args st =
  if selfAlive env then
    if bodyInPlace env then
      let rb := body args (now env) st in
      match outcome rb with
      | Returns _ =>
          {| outcome := Returns VUndefined;
             final_state := final_state rb;
             events := events rb ++ [EvSelfExecutor] |}
      | Throws e =>
          {| outcome := Throws e;
             final_state := final_state rb;
             events := events rb ++ [EvSelfReleasedInline] |}
      end
    else
      {| outcome := Throws bad_function_call;
         final_state := st;
         events := [EvSelfReleasedInline] |}
  else {| outcome := Returns VUndefined; final_state := st; events := [] |}.
Proof.
  unfold inner_function, delegateExecutorSync.
  destruct (selfAlive env); [|reflexivity].
  destruct (bodyInPlace env); [|reflexivity].
  unfold bind, on_unwind, emit, ret; simpl.
  destruct (outcome (body args (now env) st)) eqn:Hb; simpl; rewrite ?Hb; simpl.
  - by rewrite app_nil_r.
  - reflexivity.
Qed.

Lemma body_runs_true env :
  body_runs env = true <-> selfAlive env = true /\ bodyInPlace env = true.
Proof. unfold body_runs. apply andb_true_iff. Qed.

(** The inner function when the body runs. *)
Lemma inner_function_runs body env args st :
  body_runs env = true ->
  inner_function body env args st =
  let rb := body args (now env) st in
  match outcome rb with
  | Returns _ =>
      {| outcome := Returns VUndefined;
         final_state := final_state rb;
         events := events rb ++ [EvSelfExecutor] |}
  | Throws e =>
      {| outcome := Throws e;
         final_state := final_state rb;
         events := events rb ++ [EvSelfReleasedInline] |}
  end.
Proof.
  intros [Halive Hbody]%body_runs_true.
  by rewrite inner_function_unfold, Halive, Hbody.
Qed.

(** What [forwardToOriginalConsole] makes of an inner function. *)
Lemma forwardToOriginalConsole_unfold rt oc name innerFn args st :
  forwardToOriginalConsole rt oc name innerFn args st =
  let ri := innerFn args st in
  match outcome ri with
  | Returns v =>
      {| outcome := match forwarding_error rt oc name args with
                    | Some e => Throws e
                    | None => Returns v
                    end;
         final_state := final_state ri;
         events := events ri ++ forwarding_events rt oc name args |}
  | Throws e =>
      {| outcome := Throws e; final_state := final_state ri; events := events ri |}
  end.
Proof.
  unfold forwardToOriginalConsole, forwarding_error, forwarding_events,
    forwarding_target, bind, lift, emit, ret; simpl.
  destruct (outcome (innerFn args st)) as [v|e]; [|reflexivity].
  destruct oc as [o|]; simpl; [|reflexivity].
  destruct (getProperty rt o name) as [val|e]; simpl; [|by rewrite app_nil_r].
  destruct val; simpl; try reflexivity.
  destruct (isFunction rt o0); simpl; [|reflexivity].
  destruct (callWithThis rt o0 o args); simpl; reflexivity.
Qed.

Lemma console_method_unfold rt oc name body env args st :
  console_method rt oc name body env args st =
  let ri := inner_function body env args st in
  match outcome ri with
  | Returns v =>
      {| outcome := match forwarding_error rt oc name args with
                    | Some e => Throws e
                    | None => Returns v
                    end;
         final_state := final_state ri;
         events := events ri ++ forwarding_events rt oc name args |}
  | Throws e =>
      {| outcome := Throws e; final_state := final_state ri; events := events ri |}
  end.
Proof. unfold console_method. apply forwardToOriginalConsole_unfold. Qed.

(** The state after a call is the state that the body leaves, when the
    body runs, and the state before otherwise. *)
Lemma console_method_state rt oc name body env args st :
  final_state (console_method rt oc name body env args st) =
  if body_runs env then final_state (body args (now env) st) else st.
Proof.
  rewrite console_method_unfold, inner_function_unfold. unfold body_runs. simpl.
  destruct (selfAlive env); simpl; [|reflexivity].
  destruct (bodyInPlace env); simpl; [|reflexivity].
  by destruct (outcome (body args (now env) st)).
Qed.

(** The messages of a call are those of the body, when the body runs, and
    none otherwise. *)
Lemma console_method_messages rt oc name body env args st :
  messages (console_method rt oc name body env args st) =
  if body_runs env then messages (body args (now env) st) else [].
Proof.
  unfold messages. rewrite console_method_unfold, inner_function_unfold.
  unfold body_runs. simpl.
  destruct (selfAlive env); simpl; [|by rewrite forwarding_events_no_message].
  destruct (bodyInPlace env); simpl; [|reflexivity].
  destruct (outcome (body args (now env) st)); simpl;
    rewrite ?messages_of_app, ?forwarding_events_no_message; simpl;
    by rewrite ?app_nil_r.
Qed.

(** ** The installed console *)

Lemma installConsoleHandler_lookup rt ocv name body :
  In (name, body) (method_bodies rt) ->
  installConsoleHandler rt ocv !! name
  = Some (console_method rt (originalConsole_of ocv) name body).
Proof.
  unfold method_bodies, installConsoleHandler, installConsoleMethod,
    kForwardingConsoleMethods.
  cbn [map app fold_left fst snd].
  intros Hin.
  repeat (destruct Hin as [Hin|Hin];
          [injection Hin as <- <-; by simplify_map_eq|]).
  destruct Hin.
Qed.

Lemma installConsoleHandler_lookup_inv rt ocv name f :
  installConsoleHandler rt ocv !! name = Some f ->
  exists body,
    In (name, body) (method_bodies rt)
    /\ f = console_method rt (originalConsole_of ocv) name body.
Proof.
  unfold method_bodies, installConsoleHandler, installConsoleMethod,
    kForwardingConsoleMethods.
  cbn [map app fold_left fst snd].
  intros Hf.
  repeat (apply lookup_insert_Some in Hf as [[<- <-]|[_ Hf]];
          [eexists; split; [|reflexivity]; cbn [In]; tauto|]).
  by rewrite lookup_empty in Hf.
Qed.

Lemma method_bodies_names rt name :
  In name console_method_names <-> exists body, In (name, body) (method_bodies rt).
Proof.
  unfold console_method_names, label_method_names, method_bodies,
    kForwardingConsoleMethods.
  cbn [map app fst snd].
  split.
  - intros Hin.
    repeat (destruct Hin as [<-|Hin]; [eexists; cbn [In]; tauto|]).
    destruct Hin.
  - intros [body Hin].
    repeat (destruct Hin as [Hin|Hin];
            [injection Hin as <- _; cbn [In]; tauto|]).
    destruct Hin.
Qed.

(** The names under which the handler installs a method are the nineteen
    of [console_method_names]. *)
Lemma installed_names rt ocv name :
  In name console_method_names
  <-> is_Some (installConsoleHandler rt ocv !! name : option HostFunction).
Proof.
  rewrite (method_bodies_names rt). split.
  - intros [body Hin]. rewrite (installConsoleHandler_lookup _ _ _ _ Hin). eauto.
  - intros [f Hf]. apply installConsoleHandler_lookup_inv in Hf as (body & Hin & _).
    eauto.
Qed.

(** A call of an installed method runs the host function built around its
    body. *)
Lemma invoke_installed rt ocv name body env args st :
  In (name, body) (method_bodies rt) ->
  invoke rt ocv name env args st
  = console_method rt (originalConsole_of ocv) name body env args st.
Proof.
  intros Hin. unfold invoke.
  by rewrite (installConsoleHandler_lookup rt ocv name body Hin).
Qed.

(** Every call either runs an installed method or does not reach the file. *)
Lemma invoke_cases rt ocv name env args st :
  (exists body,
      In (name, body) (method_bodies rt)
      /\ invoke rt ocv name env args st
         = console_method rt (originalConsole_of ocv) name body env args st)
  \/ (~ In name console_method_names
      /\ invoke rt ocv name env args st
         = lift (callInherited rt (originalConsole_of ocv) name args) st).
Proof.
  unfold invoke.
  destruct (installConsoleHandler rt ocv !! name) as [f|] eqn:Hf.
  - left. apply installConsoleHandler_lookup_inv in Hf as (body & Hin & ->).
    eauto.
  - right. split; [|reflexivity].
    intros Hin. apply (method_bodies_names rt) in Hin as [body Hin].
    apply (installConsoleHandler_lookup rt ocv) in Hin. congruence.
Qed.

(** ** The bodies *)

Lemma toBoolean_truthy v : toBoolean v = truthy v.
Proof.
  destruct v as [| |b|m|d|s|o]; try reflexivity.
  - unfold toBoolean, truthy, PrimFloat.is_zero; simpl.
    by rewrite negb_orb.
  - by destruct s.
Qed.

Lemma label_of_args_string rt L rest :
  label_of_args rt (VString L :: rest) = Returns L.
Proof. reflexivity. Qed.

Lemma label_of_args_default rt :
  label_of_args rt [] = Returns "default"%string
  /\ (forall rest, label_of_args rt (VUndefined :: rest) = Returns "default"%string)
  /\ (forall rest, label_of_args rt (VString "default" :: rest) = Returns "default"%string).
Proof. by repeat split. Qed.

Lemma body_count_unfold rt args ts st :
  body_count rt args ts st =
  match label_of_args rt args with
  | Returns label =>
      let second :=
        match countMap st !! label with
        | None => 1
        | Some c => int_wrap (c + 1)
        end in
      {| outcome := Returns tt;
         final_state := {| countMap := <[label := second]> (countMap st);
                           timerTable := timerTable st |};
         events := [EvAddConsoleMessage (count_message ts label second)] |}
  | Throws e => {| outcome := Throws e; final_state := st; events := [] |}
  end.
Proof.
  unfold body_count, bind, lift, get_state, put_state, addConsoleMessage, emit.
  simpl. by destruct (label_of_args rt args).
Qed.

Lemma body_countReset_unfold rt args ts st :
  body_countReset rt args ts st =
  match label_of_args rt args with
  | Returns label =>
      match countMap st !! label with
      | None =>
          {| outcome := Returns tt;
             final_state := st;
             events := [EvAddConsoleMessage
                          (text_message ts kWarning
                             ("Count for '" +:+ label +:+ "' does not exist"))] |}
      | Some _ =>
          {| outcome := Returns tt;
             final_state := {| countMap := <[label := 0]> (countMap st);
                               timerTable := timerTable st |};
             events := [] |}
      end
  | Throws e => {| outcome := Throws e; final_state := st; events := [] |}
  end.
Proof.
  unfold body_countReset, bind, lift, get_state, put_state, addConsoleMessage, emit.
  simpl. destruct (label_of_args rt args) as [label|e]; simpl; [|done].
  by destruct (countMap st !! label).
Qed.

Lemma body_time_unfold rt args ts st :
  body_time rt args ts st =
  match label_of_args rt args with
  | Returns label =>
      match timerTable st !! label with
      | None =>
          {| outcome := Returns tt;
             final_state := {| countMap := countMap st;
                               timerTable := <[label := ts]> (timerTable st) |};
             events := [] |}
      | Some _ =>
          {| outcome := Returns tt;
             final_state := st;
             events := [EvAddConsoleMessage
                          (text_message ts kWarning
                             ("Timer '" +:+ label +:+ "' already exists"))] |}
      end
  | Throws e => {| outcome := Throws e; final_state := st; events := [] |}
  end.
Proof.
  unfold body_time, bind, lift, get_state, put_state, addConsoleMessage, emit.
  simpl. destruct (label_of_args rt args) as [label|e]; simpl; [|done].
  by destruct (timerTable st !! label).
Qed.

Lemma body_timeEnd_unfold rt args ts st :
  body_timeEnd rt args ts st =
  match label_of_args rt args with
  | Returns label =>
      match timerTable st !! label with
      | None =>
          {| outcome := Returns tt;
             final_state := st;
             events := [EvAddConsoleMessage
                          (text_message ts kWarning
                             ("Timer '" +:+ label +:+ "' does not exist"))] |}
      | Some start =>
          {| outcome := Returns tt;
             final_state := {| countMap := countMap st;
                               timerTable := delete label (timerTable st) |};
             events := [EvAddConsoleMessage
                          (text_message ts kTimeEnd (elapsed_text label ts start))] |}
      end
  | Throws e => {| outcome := Throws e; final_state := st; events := [] |}
  end.
Proof.
  unfold body_timeEnd, bind, lift, get_state, put_state, addConsoleMessage, emit.
  simpl. destruct (label_of_args rt args) as [label|e]; simpl; [|done].
  by destruct (timerTable st !! label).
Qed.

Lemma body_timeLog_unfold rt args ts st :
  body_timeLog rt args ts st =
  match label_of_args rt args with
  | Returns label =>
      {| outcome := Returns tt;
         final_state := st;
         events :=
           [EvAddConsoleMessage
              match timerTable st !! label with
              | None =>
                  text_message ts kWarning
                    ("Timer '" +:+ label +:+ "' does not exist")
              | Some start =>
                  {| msg_timestamp := ts;
                     msg_type := kLog;
                     msg_args := VString (elapsed_text label ts start) :: skipn 1 args |}
              end] |}
  | Throws e => {| outcome := Throws e; final_state := st; events := [] |}
  end.
Proof.
  unfold body_timeLog, bind, lift, get_state, put_state, addConsoleMessage, emit.
  simpl. destruct (label_of_args rt args) as [label|e]; simpl; [|done].
  destruct (timerTable st !! label) as [start|]; simpl; [|done].
  rewrite emplace_back_args_app.
  destruct args as [|a0 [|a1 args]]; reflexivity.
Qed.

Lemma body_assert_unfold args ts st :
  body_assert args ts st =
  {| outcome := Returns tt;
     final_state := st;
     events :=
       if match args with arg0 :: _ => truthy arg0 | [] => false end then []
       else [EvAddConsoleMessage
               {| msg_timestamp := ts;
                  msg_type := kAssert;
                  msg_args := assertion_body (tl args) |}] |}.
Proof.
  unfold body_assert, addConsoleMessage, emit, ret.
  destruct args as [|arg0 rest]; simpl; [done|].
  rewrite toBoolean_truthy. destruct (truthy arg0); [done|].
  rewrite emplace_back_args_app; simpl.
  destruct rest as [|first rest]; simpl; [done|].
  by destruct first.
Qed.

Lemma body_forwarding_unfold type args ts st :
  body_forwarding type args ts st =
  {| outcome := Returns tt;
     final_state := st;
     events := [EvAddConsoleMessage
                  {| msg_timestamp := ts; msg_type := type; msg_args := args |}] |}.
Proof.
  unfold body_forwarding, addConsoleMessage, emit.
  by rewrite emplace_back_args_app.
Qed.

(** ** Calls of the single methods *)

Ltac installed := cbn [method_bodies kForwardingConsoleMethods map app fst snd In]; tauto.

Lemma invoke_count rt ocv env args st :
  invoke rt ocv "count" env args st
  = console_method rt (originalConsole_of ocv) "count" (body_count rt) env args st.
Proof. apply invoke_installed. installed. Qed.

Lemma invoke_countReset rt ocv env args st :
  invoke rt ocv "countReset" env args st
  = console_method rt (originalConsole_of ocv) "countReset" (body_countReset rt)
      env args st.
Proof. apply invoke_installed. installed. Qed.

Lemma invoke_time rt ocv env args st :
  invoke rt ocv "time" env args st
  = console_method rt (originalConsole_of ocv) "time" (body_time rt) env args st.
Proof. apply invoke_installed. installed. Qed.

Lemma invoke_timeEnd rt ocv env args st :
  invoke rt ocv "timeEnd" env args st
  = console_method rt (originalConsole_of ocv) "timeEnd" (body_timeEnd rt) env args st.
Proof. apply invoke_installed. installed. Qed.

Lemma invoke_timeLog rt ocv env args st :
  invoke rt ocv "timeLog" env args st
  = console_method rt (originalConsole_of ocv) "timeLog" (body_timeLog rt) env args st.
Proof. apply invoke_installed. installed. Qed.



(** *** count *)

(** One live call of [count] whose label resolves to [L]. *)
Lemma count_call rt ocv env args L st :
  body_runs env = true ->
  label_of_args rt args = Returns L ->
  let r := invoke rt ocv "count" env args st in
  let second :=
    match countMap st !! L with
    | None => 1
    | Some c => int_wrap (c + 1)
    end in
  messages r = [count_message (now env) L second]
  /\ final_state r = {| countMap := <[L := second]> (countMap st);
                        timerTable := timerTable st |}.
Proof.
  intros Halive HL. cbv zeta.
  rewrite invoke_count, console_method_messages, console_method_state, Halive.
  unfold messages. rewrite body_count_unfold, HL. by split.
Qed.

(** What any call does to the counters. *)
Lemma countMap_step rt ocv name env args st :
  countMap (final_state (invoke rt ocv name env args st))
  = if body_runs env then countMap_after rt name args st else countMap st.
Proof.
  destruct (invoke_cases rt ocv name env args st) as [(body & Hin & ->)|[Hnot ->]].
  - rewrite console_method_state. destruct (body_runs env); [|done].
    unfold method_bodies, kForwardingConsoleMethods in Hin.
    cbn [map app fst snd In] in Hin. unfold countMap_after.
    repeat (destruct Hin as [Hin|Hin];
            [injection Hin as <- <-;
             rewrite ?body_count_unfold, ?body_countReset_unfold, ?body_time_unfold,
               ?body_timeEnd_unfold, ?body_timeLog_unfold, ?body_assert_unfold,
               ?body_forwarding_unfold;
             destruct (label_of_args rt args) as [l|e]; cbn; try done;
             destruct (timerTable st !! l); try done;
             by destruct (countMap st !! l)|]).
    destruct Hin.
  - cbn. destruct (body_runs env); [|done].
    unfold countMap_after. destruct (label_of_args rt args) as [l|e]; [|done].
    destruct (String.eqb_spec name "count") as [->|_].
    { exfalso. apply Hnot. cbn. tauto. }
    destruct (String.eqb_spec name "countReset") as [->|_]; [|done].
    exfalso. apply Hnot. cbn. tauto.
Qed.

(** A call [count(L)] adds one to the counter of [L]. *)
Lemma countMap_after_count rt ocv L c st :
  calls_with_label rt "count" L c = true ->
  countMap (final_state (run_call rt ocv c st)) !! L
  = Some match countMap st !! L with
         | None => 1
         | Some v => int_wrap (v + 1)
         end.
Proof.
  unfold calls_with_label, run_call. rewrite countMap_step.
  intros [[Hname ->]%andb_prop HL]%andb_prop.
  apply String.eqb_eq in Hname as ->.
  unfold countMap_after.
  destruct (label_of_args rt (call_args c)) as [l|e]; [|done].
  apply String.eqb_eq in HL as ->. cbn.
  destruct (countMap st !! L); apply lookup_insert_eq.
Qed.

(** A call that is neither [count(L)] nor [countReset(L)] leaves the
    counter of [L] as it is. *)
Lemma countMap_after_other rt ocv L c st :
  calls_with_label rt "count" L c = false ->
  calls_with_label rt "countReset" L c = false ->
  countMap (final_state (run_call rt ocv c st)) !! L = countMap st !! L.
Proof.
  unfold calls_with_label, run_call. rewrite countMap_step.
  destruct (body_runs (call_env c)); [|done].
  rewrite !andb_true_r. unfold countMap_after.
  destruct (label_of_args rt (call_args c)) as [l|e]; [|done].
  destruct (String.eqb_spec (call_name c) "count") as [->|_]; cbn.
  - intros Hne%String.eqb_neq _.
    destruct (countMap st !! l); by rewrite lookup_insert_ne.
  - intros _.
    destruct (String.eqb_spec (call_name c) "countReset") as [_|_]; cbn; [|done].
    intros Hne%String.eqb_neq.
    destruct (countMap st !! l); [by rewrite lookup_insert_ne|done].
Qed.

Lemma count_calls_cons rt L c calls :
  count_calls rt L (c :: calls)
  = ((if calls_with_label rt "count" L c then 1 else 0) + count_calls rt L calls)%nat.
Proof.
  unfold count_calls. cbn [List.filter].
  by destruct (calls_with_label rt "count" L c).
Qed.

(** The counter of [L] after a sequence of calls without [countReset(L)],
    as long as it fits an [int]: the number of calls [count(L)] so far. *)
Lemma countMap_after_calls rt ocv L calls :
  forall st (n : nat),
    countMap st !! L = (if (n =? 0)%nat then None else Some (Z.of_nat n)) ->
    Forall (fun c => calls_with_label rt "countReset" L c = false) calls ->
    Z.of_nat (n + count_calls rt L calls) <= INT_MAX ->
    countMap (run_calls rt ocv calls st) !! L
    = (if (n + count_calls rt L calls =? 0)%nat then None
       else Some (Z.of_nat (n + count_calls rt L calls))).
Proof.
  unfold INT_MAX.
  induction calls as [|c calls IH]; intros st n Hst Hreset Hmax.
  - unfold count_calls. cbn [List.filter length run_calls].
    by rewrite Nat.add_0_r.
  - apply Forall_cons in Hreset as [Hc Hreset].
    rewrite count_calls_cons in Hmax |- *. cbn [run_calls].
    destruct (calls_with_label rt "count" L c) eqn:Hcount.
    + replace (n + (1 + count_calls rt L calls))%nat
        with (S n + count_calls rt L calls)%nat in Hmax |- * by lia.
      apply IH; [|done|done].
      rewrite (countMap_after_count _ _ _ _ _ Hcount), Hst.
      cbn [Nat.eqb]. f_equal.
      destruct (Nat.eqb_spec n 0) as [Hn|Hn]; [by subst n|].
      rewrite int_wrap_small by (unfold INT_MIN, INT_MAX; lia). lia.
    + cbn [Nat.add]. apply IH; [|done|done].
      by rewrite (countMap_after_other _ _ _ _ _ Hcount Hc).
Qed.

(** A call of [count] without a label, or with [undefined] as its first
    argument, counts and reports as [count("default")] does. *)
Lemma count_default rt ocv env rest st :
  let r := invoke rt ocv "count" env [VString "default"] st in
  let r0 := invoke rt ocv "count" env [] st in
  let r1 := invoke rt ocv "count" env (VUndefined :: rest) st in
  (messages r0 = messages r /\ final_state r0 = final_state r)
  /\ (messages r1 = messages r /\ final_state r1 = final_state r).
Proof.
  cbv zeta.
  rewrite !invoke_count, !console_method_messages, !console_method_state.
  unfold messages. rewrite !body_count_unfold. by repeat split.
Qed.

(** Where every call finds its body in place: on a fresh installation,
    after any calls of which [k - 1] are calls [count(L)] whose body ran and
    none is a call [countReset(L)] whose body ran, the [k]-th call [count(L)]
    emits exactly one message, of kind Count, whose body is the single
    string ["<L>: <k>"], for every [k] from 1 to [2^31 - 1]; and a call of
    [count] with no argument, or with [undefined] as its first argument,
    emits the same message and leaves the same state as
    [count("default")]. *)
Lemma count_kth_message rt ocv L calls args timestampMs env rest st :
  label_of_args rt args = Returns L ->
  Forall (fun c => calls_with_label rt "countReset" L c = false) calls ->
  let k := S (count_calls rt L calls) in
  Z.of_nat k <= 2147483647 ->
  messages (invoke rt ocv "count" (live timestampMs) args
              (run_calls rt ocv calls fresh_state))
  = [count_message timestampMs L (Z.of_nat k)]
  /\ (let r := invoke rt ocv "count" env [VString "default"] st in
      let r0 := invoke rt ocv "count" env [] st in
      let r1 := invoke rt ocv "count" env (VUndefined :: rest) st in
      (messages r0 = messages r /\ final_state r0 = final_state r)
      /\ (messages r1 = messages r /\ final_state r1 = final_state r)).
Proof.
  intros HL Hreset k Hk. split; [|apply count_default].
  destruct (count_call rt ocv (live timestampMs) args L
              (run_calls rt ocv calls fresh_state) eq_refl HL) as [-> _].
  rewrite (countMap_after_calls rt ocv L calls fresh_state 0 (lookup_empty L) Hreset)
    by (unfold INT_MAX; lia).
  subst k. cbn [Nat.add] in *.
  destruct (Nat.eqb_spec (count_calls rt L calls) 0) as [Hn|Hn]; [by rewrite Hn|].
  rewrite int_wrap_small by (unfold INT_MIN, INT_MAX; lia).
  do 2 f_equal. lia.
Qed.

Lemma count_calls_repeat rt L c n :
  calls_with_label rt "count" L c = true ->
  count_calls rt L (repeat c n) = n.
Proof.
  intros Hc. induction n as [|n IH]; [done|].
  cbn [repeat]. rewrite count_calls_cons, Hc, IH. done.
Qed.

(** The counter is an [int]: after [2^31 - 1] calls [count("a")] whose
    body ran, the next one does not report 2147483648. *)
Lemma count_overflows n :
  Z.of_nat n = 2147483647 ->
  let c := {| call_name := "count"%string;
              call_env := live 0%float;
              call_args := [VString "a"] |} in
  Forall (fun c => calls_with_label example_runtime "countReset" "a" c = false)
    (repeat c n)
  /\ count_calls example_runtime "a" (repeat c n) = n
  /\ messages (invoke example_runtime VUndefined "count" (live 0%float) [VString "a"]
                 (run_calls example_runtime VUndefined (repeat c n) fresh_state))
     = [text_message 0%float kCount "a: -2147483648"].
Proof.
  intros HnZ c.
  assert (Hc : calls_with_label example_runtime "count" "a" c = true) by reflexivity.
  assert (Hreset :
    Forall (fun c => calls_with_label example_runtime "countReset" "a" c = false)
      (repeat c n)).
  { apply List.Forall_forall. intros c' ->%repeat_spec. reflexivity. }
  split; [exact Hreset|]. split; [exact (count_calls_repeat _ _ _ _ Hc)|].
  destruct (count_call example_runtime VUndefined (live 0%float) [VString "a"] "a"
              (run_calls example_runtime VUndefined (repeat c n) fresh_state)
              eq_refl eq_refl) as [Hm _].
  rewrite Hm. clear Hm.
  rewrite (countMap_after_calls example_runtime VUndefined "a" (repeat c n)
             fresh_state 0 (lookup_empty _) Hreset)
    by (rewrite (count_calls_repeat _ _ _ _ Hc); unfold INT_MAX; lia).
  rewrite (count_calls_repeat _ _ _ _ Hc). cbn [Nat.add].
  destruct (Nat.eqb_spec n 0) as [Hn0|_]; [lia|].
  rewrite HnZ. reflexivity.
Qed.

(** ** A later call of the same method *)

Lemma first_call_in_place keepsTarget i c :
  script_name c ∉ moved_out i ->
  bodyInPlace (env_of keepsTarget i c) = true.
Proof.
  intros Hnot. unfold env_of. cbn [bodyInPlace].
  rewrite bool_decide_eq_false_2 by done. apply orb_true_r.
Qed.

Lemma later_call_body_gone i c :
  script_name c ∈ moved_out i ->
  bodyInPlace (env_of false i c) = false.
Proof.
  intros Hin. unfold env_of. cbn [bodyInPlace].
  by rewrite bool_decide_eq_true_2.
Qed.

(** Which host functions have moved their body out, after the calls of a
    script. *)
Ltac moved_names :=
  cbn [moved_out fresh_installation after_call run_script script_name live_call];
  rewrite ?elem_of_union, ?elem_of_singleton, ?elem_of_empty;
  intuition discriminate.

(** The first call of a host function is a call whose body runs, on every
    build. *)
Lemma script_call_first rt ocv keepsTarget name timestampMs args i :
  name ∉ moved_out i ->
  script_call rt ocv keepsTarget (live_call name timestampMs args) i
  = invoke rt ocv name (live timestampMs) args (console_state i).
Proof.
  intros Hnot. unfold script_call, env_of, live_call, live.
  cbn [script_name script_time script_alive script_args].
  rewrite bool_decide_eq_false_2 by done. by rewrite orb_true_r.
Qed.

(** Where the library keeps the target of a moved-from [std::function],
    every call while the target is alive is a call whose body runs. *)
Lemma script_call_kept rt ocv name timestampMs args i :
  script_call rt ocv true (live_call name timestampMs args) i
  = invoke rt ocv name (live timestampMs) args (console_state i).
Proof. reflexivity. Qed.

Lemma run_script_kept rt ocv calls i :
  console_state (run_script rt ocv true calls i)
  = run_calls rt ocv (map in_place calls) (console_state i).
Proof.
  revert i. induction calls as [|c calls IH]; intros i; [done|].
  cbn [run_script map run_calls]. by rewrite IH.
Qed.

(** A live call of an installed method that finds its body moved out:
    the call of the empty [std::function] throws, the hand-off to
    [selfExecutor] is not reached, nothing goes to the delegate, the state
    stays, and the original console is not called. *)
Lemma call_without_body rt ocv name env args st :
  In name console_method_names ->
  selfAlive env = true ->
  bodyInPlace env = false ->
  let r := invoke rt ocv name env args st in
  outcome r = Throws bad_function_call
  /\ events r = [EvSelfReleasedInline]
  /\ messages r = []
  /\ final_state r = st.
Proof.
  intros Hname Halive Hplace. cbv zeta.
  apply (method_bodies_names rt) in Hname as [body Hin].
  rewrite (invoke_installed _ _ _ _ _ _ _ Hin).
  unfold messages.
  rewrite console_method_unfold, inner_function_unfold, Halive, Hplace.
  by repeat split.
Qed.

(** Where the library leaves a moved-from [std::function] empty, a later
    call of the same host function while the target is alive throws. *)
Lemma script_call_moved rt ocv name timestampMs args i :
  In name console_method_names ->
  name ∈ moved_out i ->
  let r := script_call rt ocv false (live_call name timestampMs args) i in
  outcome r = Throws bad_function_call
  /\ events r = [EvSelfReleasedInline]
  /\ messages r = []
  /\ final_state r = console_state i.
Proof.
  intros Hname Hin. unfold script_call.
  apply (call_without_body rt ocv name); [done|done|].
  by apply later_call_body_gone.
Qed.

(** C1.  The code at the failing input.  On a fresh installation the first
    [count(L)] emits ["<L>: 1"], on every build.  The second [count(L)]
    finds the body of the host function moved out by the first: where the
    standard library leaves the moved-from [std::function] empty, the call
    throws [std::bad_function_call] and hands nothing to the delegate,
    instead of ["<L>: 2"]; where the library keeps the target, it emits
    ["<L>: 2"]. *)
Theorem second_count_finds_body_moved rt ocv L t1 t2 :
  let first := live_call "count" t1 [VString L] in
  let second := live_call "count" t2 [VString L] in
  (forall keepsTarget,
      messages (script_call rt ocv keepsTarget first fresh_installation)
      = [count_message t1 L 1])
  /\ (let r2 := script_call rt ocv false second
                  (after_call rt ocv false first fresh_installation) in
      messages r2 = []
      /\ outcome r2 = Throws bad_function_call
      /\ events r2 = [EvSelfReleasedInline])
  /\ messages (script_call rt ocv true second
                 (after_call rt ocv true first fresh_installation))
     = [count_message t2 L 2].
Proof.
  cbv zeta. split; [|split].
  - intros keepsTarget. unfold script_call.
    destruct (count_call rt ocv
                (env_of keepsTarget fresh_installation
                   (live_call "count" t1 [VString L]))
                [VString L] L fresh_state) as [Hm _]; [|done|exact Hm].
    apply body_runs_true. split; [done|].
    by apply first_call_in_place.
  - unfold script_call.
    destruct (call_without_body rt ocv "count"
                (env_of false (after_call rt ocv false
                                 (live_call "count" t1 [VString L])
                                 fresh_installation)
                   (live_call "count" t2 [VString L]))
                [VString L]
                (console_state (after_call rt ocv false
                                  (live_call "count" t1 [VString L])
                                  fresh_installation)))
      as (Hout & Hev & Hm & _); [cbn; tauto|done| |done].
    apply later_call_body_gone. cbn. set_solver.
  - unfold script_call, after_call, script_call, live_call, fresh_installation, env_of.
    cbn [console_state moved_out script_name script_time script_alive script_args orb].
    change {| now := t1; selfAlive := true; bodyInPlace := true |} with (live t1).
    change {| now := t2; selfAlive := true; bodyInPlace := true |} with (live t2).
    destruct (count_call rt ocv (live t1) [VString L] L fresh_state eq_refl eq_refl)
      as [_ ->].
    destruct (count_call rt ocv (live t2) [VString L] L
                {| countMap := <[L := 1]> (countMap fresh_state);
                   timerTable := timerTable fresh_state |} eq_refl eq_refl)
      as [Hm _].
    cbn [countMap now live] in Hm. rewrite lookup_insert_eq in Hm. exact Hm.
Qed.

(** *** assert *)



(** *** countReset *)



(** *** The passthrough methods *)




(** *** time, timeEnd and timeLog *)

(** One live call of [time] whose label resolves to [L]. *)
Lemma time_call rt ocv env args L st :
  body_runs env = true ->
  label_of_args rt args = Returns L ->
  let r := invoke rt ocv "time" env args st in
  match timerTable st !! L with
  | None =>
      messages r = []
      /\ final_state r = {| countMap := countMap st;
                            timerTable := <[L := now env]> (timerTable st) |}
  | Some _ =>
      messages r
      = [text_message (now env) kWarning ("Timer '" +:+ L +:+ "' already exists")]
      /\ final_state r = st
  end.
Proof.
  intros Halive HL. cbv zeta.
  rewrite invoke_time, console_method_messages, console_method_state, Halive.
  unfold messages. rewrite body_time_unfold, HL.
  by destruct (timerTable st !! L).
Qed.

(** One live call of [timeEnd] whose label resolves to [L]. *)
Lemma timeEnd_call rt ocv env args L st :
  body_runs env = true ->
  label_of_args rt args = Returns L ->
  let r := invoke rt ocv "timeEnd" env args st in
  match timerTable st !! L with
  | None =>
      messages r
      = [text_message (now env) kWarning ("Timer '" +:+ L +:+ "' does not exist")]
      /\ final_state r = st
  | Some start =>
      messages r = [text_message (now env) kTimeEnd (elapsed_text L (now env) start)]
      /\ final_state r = {| countMap := countMap st;
                            timerTable := delete L (timerTable st) |}
  end.
Proof.
  intros Halive HL. cbv zeta.
  rewrite invoke_timeEnd, console_method_messages, console_method_state, Halive.
  unfold messages. rewrite body_timeEnd_unfold, HL.
  by destruct (timerTable st !! L).
Qed.

(** One live call of [timeLog] whose label resolves to [L]. *)
Lemma timeLog_call rt ocv env args L st :
  body_runs env = true ->
  label_of_args rt args = Returns L ->
  let r := invoke rt ocv "timeLog" env args st in
  messages r
  = [match timerTable st !! L with
     | None =>
         text_message (now env) kWarning ("Timer '" +:+ L +:+ "' does not exist")
     | Some start =>
         {| msg_timestamp := now env;
            msg_type := kLog;
            msg_args := VString (elapsed_text L (now env) start) :: skipn 1 args |}
     end]
  /\ final_state r = st.
Proof.
  intros Halive HL. cbv zeta.
  rewrite invoke_timeLog, console_method_messages, console_method_state, Halive.
  unfold messages. by rewrite body_timeLog_unfold, HL.
Qed.

(** [time(L)] at [t0] when no timer named [L] exists, then [timeEnd(L)]
    at [t1], both with their bodies in place: the second emits the message
    of kind TimeEnd with the text ["<L>: <t1 - t0> ms"], and the timer is
    removed. *)
Lemma time_then_timeEnd_calls rt ocv L t0 t1 st :
  timerTable st !! L = None ->
  let r0 := invoke rt ocv "time" (live t0) [VString L] st in
  let r1 := invoke rt ocv "timeEnd" (live t1) [VString L] (final_state r0) in
  messages r0 = []
  /\ messages r1
     = [text_message t1 kTimeEnd
          (L +:+ ": " +:+ std_to_string_double (PrimFloat.sub t1 t0) +:+ " ms")]
  /\ final_state r1
     = {| countMap := countMap st;
          timerTable := delete L (<[L := t0]> (timerTable st)) |}.
Proof.
  intros Hnone. cbv zeta.
  pose proof (time_call rt ocv (live t0) [VString L] L st eq_refl eq_refl) as H0.
  cbv zeta in H0. rewrite Hnone in H0. unfold live in H0 at 3.
  cbn [now] in H0. destruct H0 as [Hm0 Hs0].
  rewrite Hs0.
  pose proof (timeEnd_call rt ocv (live t1) [VString L] L
                {| countMap := countMap st;
                   timerTable := <[L := t0]> (timerTable st) |} eq_refl eq_refl) as H1.
  cbv zeta in H1. cbn [timerTable countMap] in H1.
  rewrite lookup_insert_eq in H1. destruct H1 as [Hm1 Hs1].
  unfold elapsed_text in Hm1. cbn [now live] in Hm1.
  by repeat split.
Qed.

(** C3.  The code at the failing input.  On a fresh installation
    [time(L)] at [t0] and then [timeEnd(L)] at [t1] emit exactly one
    message, of kind TimeEnd, whose body is the single string
    ["<L>: <t1 - t0> ms"], the difference of the two doubles being printed
    by [std::to_string], and the timer is removed, on every build.  The
    second [timeEnd(L)] finds the body of the host function moved out by the
    first: where the standard library leaves the moved-from [std::function]
    empty, the call throws [std::bad_function_call] and hands nothing to the
    delegate, instead of the Warning; where the library keeps the target, it
    emits the Warning ["Timer '<L>' does not exist"]. *)
Theorem second_timeEnd_finds_body_moved rt ocv L t0 t1 t2 :
  let start := live_call "time" t0 [VString L] in
  let stop := live_call "timeEnd" t1 [VString L] in
  let again := live_call "timeEnd" t2 [VString L] in
  (forall keepsTarget,
      let i1 := after_call rt ocv keepsTarget start fresh_installation in
      let r1 := script_call rt ocv keepsTarget stop i1 in
      messages (script_call rt ocv keepsTarget start fresh_installation) = []
      /\ messages r1
         = [text_message t1 kTimeEnd
              (L +:+ ": " +:+ std_to_string_double (PrimFloat.sub t1 t0) +:+ " ms")]
      /\ timerTable (final_state r1) !! L = None)
  /\ (let r2 := script_call rt ocv false again
                  (run_script rt ocv false [start; stop] fresh_installation) in
      messages r2 = []
      /\ outcome r2 = Throws bad_function_call
      /\ events r2 = [EvSelfReleasedInline])
  /\ messages (script_call rt ocv true again
                 (run_script rt ocv true [start; stop] fresh_installation))
     = [text_message t2 kWarning ("Timer '" +:+ L +:+ "' does not exist")].
Proof.
  cbv zeta.
  destruct (time_then_timeEnd_calls rt ocv L t0 t1 fresh_state (lookup_empty L))
    as (Hm0 & Hm1 & Hs1).
  split; [|split].
  - intros keepsTarget. unfold after_call. cbn [moved_out script_name live_call].
    rewrite (script_call_first rt ocv keepsTarget "timeEnd") by moved_names.
    rewrite (script_call_first rt ocv keepsTarget "time") by moved_names.
    cbn [console_state fresh_installation].
    rewrite Hs1. cbn [timerTable]. by rewrite lookup_delete_eq.
  - cbn [run_script].
    destruct (script_call_moved rt ocv "timeEnd" t2 [VString L]
                (after_call rt ocv false (live_call "timeEnd" t1 [VString L])
                   (after_call rt ocv false (live_call "time" t0 [VString L])
                      fresh_installation)))
      as (Hout & Hev & Hm & _); [cbn; tauto|moved_names|done].
  - cbn [run_script]. unfold after_call. rewrite !script_call_kept.
    cbn [console_state fresh_installation]. rewrite Hs1.
    pose proof (timeEnd_call rt ocv (live t2) [VString L] L
                  {| countMap := countMap fresh_state;
                     timerTable := delete L (<[L := t0]> (timerTable fresh_state)) |}
                  eq_refl eq_refl) as H2.
    cbv zeta in H2. cbn [timerTable countMap] in H2.
    rewrite lookup_delete_eq in H2. by destruct H2 as [-> _].
Qed.

(** *** The timer table across calls *)

(** What any call does to the timer table. *)
Lemma timerTable_step rt ocv name env args st :
  timerTable (final_state (invoke rt ocv name env args st))
  = if body_runs env then timerTable_after rt name args (now env) st
    else timerTable st.
Proof.
  destruct (invoke_cases rt ocv name env args st) as [(body & Hin & ->)|[Hnot ->]].
  - rewrite console_method_state. destruct (body_runs env); [|done].
    unfold method_bodies, kForwardingConsoleMethods in Hin.
    cbn [map app fst snd In] in Hin. unfold timerTable_after.
    repeat (destruct Hin as [Hin|Hin];
            [injection Hin as <- <-;
             rewrite ?body_count_unfold, ?body_countReset_unfold, ?body_time_unfold,
               ?body_timeEnd_unfold, ?body_timeLog_unfold, ?body_assert_unfold,
               ?body_forwarding_unfold;
             destruct (label_of_args rt args) as [l|e]; cbn; try done;
             destruct (countMap st !! l); try done;
             destruct (timerTable st !! l) eqn:Hl; try done;
             by rewrite delete_id|]).
    destruct Hin.
  - cbn. destruct (body_runs env); [|done].
    unfold timerTable_after. destruct (label_of_args rt args) as [l|e]; [|done].
    destruct (String.eqb_spec name "time") as [->|_].
    { exfalso. apply Hnot. cbn. tauto. }
    destruct (String.eqb_spec name "timeEnd") as [->|_]; [|done].
    exfalso. apply Hnot. cbn. tauto.
Qed.

(** An entry of the timer table that a call leaves was there before, or
    was made by a call of [time] for that label at that time. *)
Lemma timer_created_by_time rt ocv name env args st l t :
  timerTable (final_state (invoke rt ocv name env args st)) !! l = Some t ->
  timerTable st !! l = Some t
  \/ (timerTable st !! l = None
      /\ name = "time"%string
      /\ selfAlive env = true
      /\ label_of_args rt args = Returns l
      /\ t = now env).
Proof.
  rewrite timerTable_step. destruct (body_runs env) eqn:Hruns; [|tauto].
  apply body_runs_true in Hruns as [Halive _].
  unfold timerTable_after. destruct (label_of_args rt args) as [l'|e]; [|tauto].
  destruct (String.eqb_spec name "time") as [->|_].
  - destruct (timerTable st !! l') as [t'|] eqn:Hl'; [tauto|].
    intros [[<- <-]|[_ H]]%lookup_insert_Some; [|tauto].
    right. by repeat split.
  - destruct (String.eqb_spec name "timeEnd") as [->|_]; [|tauto].
    intros [_ H]%lookup_delete_Some. tauto.
Qed.

(** An entry of the timer table stays as it is across a call, unless the
    call is a call of [timeEnd] for that label, which reports the time
    elapsed since the entry and removes it. *)
Lemma timer_removed_by_timeEnd rt ocv name env args st l t :
  timerTable st !! l = Some t ->
  let r := invoke rt ocv name env args st in
  timerTable (final_state r) !! l = Some t
  \/ (timerTable (final_state r) !! l = None
      /\ name = "timeEnd"%string
      /\ selfAlive env = true
      /\ label_of_args rt args = Returns l
      /\ messages r = [text_message (now env) kTimeEnd (elapsed_text l (now env) t)]).
Proof.
  intros Hl. cbv zeta. rewrite timerTable_step.
  destruct (body_runs env) eqn:Hruns; [|tauto].
  destruct (proj1 (body_runs_true env) Hruns) as [Halive _].
  unfold timerTable_after.
  destruct (label_of_args rt args) as [l'|e] eqn:HL; [|tauto].
  destruct (String.eqb_spec name "time") as [->|_].
  - destruct (timerTable st !! l') as [t'|] eqn:Hl'; [tauto|].
    left. rewrite lookup_insert_ne; [done|congruence].
  - destruct (String.eqb_spec name "timeEnd") as [->|_]; [|tauto].
    destruct (decide (l' = l)) as [->|Hne].
    + right. rewrite lookup_delete_eq. repeat split; try done.
      pose proof (timeEnd_call rt ocv env args l st Hruns HL) as H.
      cbv zeta in H. rewrite Hl in H. tauto.
    + left. by rewrite lookup_delete_ne.
Qed.

(** An entry of the timer table stays as it is across a sequence of calls
    that has no [timeEnd] for its label. *)
Lemma timer_kept rt ocv calls st l t :
  Forall (fun c => ~ ends_timer rt l c) calls ->
  timerTable st !! l = Some t ->
  timerTable (run_calls rt ocv calls st) !! l = Some t.
Proof.
  intros Hcalls. revert st.
  induction Hcalls as [|c calls Hc _ IH]; intros st Hl; [done|].
  cbn [run_calls]. apply IH. unfold run_call.
  destruct (timer_removed_by_timeEnd rt ocv (call_name c) (call_env c) (call_args c)
              st l t Hl) as [H|(_ & Hname & Halive & HL & _)]; [done|].
  exfalso. apply Hc. by repeat split.
Qed.

(** C5.  The code at the failing input.  On a fresh installation
    [time(L)] at [t0] makes the entry of [L], and a [timeLog(L)] after it
    reports the time elapsed since [t0] and leaves the entry, on every
    build.  A second [time(L)], and a second [timeLog(L)], find the body of
    their host function moved out by the first: where the standard library
    leaves the moved-from [std::function] empty, the call throws
    [std::bad_function_call] and hands nothing to the delegate, instead of
    the Warning ["Timer '<L>' already exists"] and of the time elapsed since
    [t0]; the entry stays as it is.  Where the library keeps the target,
    the second [time(L)] emits the Warning and leaves the entry, and
    the second [timeLog(L)] measures from [t0] again. *)
Theorem second_time_finds_body_moved rt ocv L t0 t1 t2 t3 rest :
  let start := live_call "time" t0 [VString L] in
  let restart := live_call "time" t1 [VString L] in
  let log2 := live_call "timeLog" t2 (VString L :: rest) in
  let log3 := live_call "timeLog" t3 (VString L :: rest) in
  let elapsed_message timestampMs :=
    {| msg_timestamp := timestampMs;
       msg_type := kLog;
       msg_args := VString (elapsed_text L timestampMs t0) :: rest |} in
  (forall keepsTarget,
      let i1 := after_call rt ocv keepsTarget start fresh_installation in
      let r2 := script_call rt ocv keepsTarget log2 i1 in
      timerTable (console_state i1) !! L = Some t0
      /\ messages r2 = [elapsed_message t2]
      /\ final_state r2 = console_state i1)
  /\ (let i1 := after_call rt ocv false start fresh_installation in
      let r := script_call rt ocv false restart i1 in
      messages r = []
      /\ outcome r = Throws bad_function_call
      /\ final_state r = console_state i1)
  /\ (let r := script_call rt ocv false log3
                 (run_script rt ocv false [start; log2] fresh_installation) in
      messages r = [] /\ outcome r = Throws bad_function_call)
  /\ (let i1 := after_call rt ocv true start fresh_installation in
      let r := script_call rt ocv true restart i1 in
      messages r
      = [text_message t1 kWarning ("Timer '" +:+ L +:+ "' already exists")]
      /\ final_state r = console_state i1)
  /\ messages (script_call rt ocv true log3
                 (run_script rt ocv true [start; log2] fresh_installation))
     = [elapsed_message t3].
Proof.
  cbv zeta.
  pose proof (time_call rt ocv (live t0) [VString L] L fresh_state eq_refl eq_refl)
    as H0.
  cbv zeta in H0. cbn [timerTable fresh_state] in H0. rewrite lookup_empty in H0.
  cbn [now live] in H0. destruct H0 as [_ Hs0].
  assert (HL : label_of_args rt (VString L :: rest) = Returns L)
    by apply label_of_args_string.
  assert (Hlog : forall timestampMs,
    let r := invoke rt ocv "timeLog" (live timestampMs) (VString L :: rest)
               {| countMap := countMap fresh_state; timerTable := <[L := t0]> ∅ |} in
    messages r
    = [{| msg_timestamp := timestampMs;
          msg_type := kLog;
          msg_args := VString (elapsed_text L timestampMs t0) :: rest |}]
    /\ final_state r
       = {| countMap := countMap fresh_state; timerTable := <[L := t0]> ∅ |}).
  { intros timestampMs.
    destruct (timeLog_call rt ocv (live timestampMs) (VString L :: rest) L
                {| countMap := countMap fresh_state; timerTable := <[L := t0]> ∅ |}
                eq_refl HL) as [Hm Hs].
    cbn [timerTable] in Hm. rewrite lookup_insert_eq in Hm.
    by split. }
  split; [|split; [|split; [|split]]].
  - intros keepsTarget. unfold after_call. cbn [moved_out script_name live_call].
    rewrite (script_call_first rt ocv keepsTarget "timeLog") by moved_names.
    rewrite (script_call_first rt ocv keepsTarget "time") by moved_names.
    cbn [console_state fresh_installation]. rewrite Hs0.
    destruct (Hlog t2) as [Hm Hs].
    split; [apply lookup_insert_eq|]. by split.
  - destruct (script_call_moved rt ocv "time" t1 [VString L]
                (after_call rt ocv false (live_call "time" t0 [VString L])
                   fresh_installation))
      as (Hout & _ & Hm & Hs); [cbn; tauto|moved_names|done].
  - cbn [run_script].
    destruct (script_call_moved rt ocv "timeLog" t3 (VString L :: rest)
                (after_call rt ocv false (live_call "timeLog" t2 (VString L :: rest))
                   (after_call rt ocv false (live_call "time" t0 [VString L])
                      fresh_installation)))
      as (Hout & _ & Hm & _); [cbn; tauto|moved_names|done].
  - unfold after_call. rewrite !script_call_kept.
    cbn [console_state fresh_installation]. rewrite Hs0.
    pose proof (time_call rt ocv (live t1) [VString L] L
                  {| countMap := countMap fresh_state; timerTable := <[L := t0]> ∅ |}
                  eq_refl eq_refl) as H1.
    cbv zeta in H1. cbn [timerTable] in H1. by rewrite lookup_insert_eq in H1.
  - cbn [run_script]. unfold after_call. rewrite !script_call_kept.
    cbn [console_state fresh_installation]. rewrite Hs0.
    destruct (Hlog t2) as [_ ->]. by destruct (Hlog t3) as [-> _].
Qed.

(** ** Forwarding, the destroyed target, and the returned value *)

(** The outcome of a body: only the conversion of the label can throw. *)
Lemma body_outcome rt name body args ts st :
  In (name, body) (method_bodies rt) ->
  outcome (body args ts st)
  = match label_error rt name (live ts) args with
    | Some e => Throws e
    | None => Returns tt
    end.
Proof.
  intros Hin. unfold label_error, label_method_names.
  unfold method_bodies, kForwardingConsoleMethods in Hin.
  cbn [map app fst snd In] in Hin.
  repeat (destruct Hin as [Hin|Hin];
          [injection Hin as <- <-;
           rewrite ?body_count_unfold, ?body_countReset_unfold, ?body_time_unfold,
             ?body_timeEnd_unfold, ?body_timeLog_unfold, ?body_assert_unfold,
             ?body_forwarding_unfold;
           cbn; try done;
           destruct (label_of_args rt args) as [l|e]; cbn; try done;
           destruct (countMap st !! l); try done;
           by destruct (timerTable st !! l)|]).
  destruct Hin.
Qed.

(** The outcome of every call of an installed method. *)
Lemma invoke_outcome rt ocv name body env args st :
  In (name, body) (method_bodies rt) ->
  outcome (invoke rt ocv name env args st)
  = if selfAlive env && negb (bodyInPlace env) then Throws bad_function_call
    else
      match label_error rt name env args with
      | Some e => Throws e
      | None =>
          match forwarding_error rt (originalConsole_of ocv) name args with
          | Some e => Throws e
          | None => Returns VUndefined
          end
      end.
Proof.
  intros Hin.
  rewrite (invoke_installed _ _ _ _ _ _ _ Hin), console_method_unfold,
    inner_function_unfold.
  cbv zeta. unfold label_error at 1, body_runs.
  destruct (selfAlive env); cbn [andb negb]; [|done].
  destruct (bodyInPlace env); cbn [andb negb]; [|done].
  rewrite (body_outcome rt name body args (now env) st Hin).
  unfold label_error. cbn [live body_runs selfAlive bodyInPlace andb].
  destruct (bool_decide (name ∈ label_method_names)); [|done].
  by destruct (label_of_args rt args).
Qed.

(** The events of every call of an installed method while the target is
    gone: the forwarding step and nothing else. *)
Lemma invoke_detached rt ocv name body env args st :
  In (name, body) (method_bodies rt) ->
  selfAlive env = false ->
  let r := invoke rt ocv name env args st in
  events r = forwarding_events rt (originalConsole_of ocv) name args
  /\ final_state r = st.
Proof.
  intros Hin Hdead. cbv zeta.
  rewrite (invoke_installed _ _ _ _ _ _ _ Hin), console_method_unfold,
    inner_function_unfold, Hdead.
  by split.
Qed.

(** C7, amended.  In every call of an installed method the inner function
    (which runs the body when the target is alive) runs first.  When it returns, and an
    original console was captured whose property of the same name is an
    object that is a function, that function is called once, with the
    original console as receiver and the arguments of the call unchanged,
    and what it returns is ignored; when there is no such function,
    nothing is forwarded.  An error thrown by the look-up of the property
    or by the original function ends the call with that error; when the
    inner function throws, the call ends with its error and nothing is
    forwarded.  Forwarding leaves the [ConsoleState] alone. *)
Theorem forwarding_after_inner rt ocv name body env args st :
  In (name, body) (method_bodies rt) ->
  let oc := originalConsole_of ocv in
  let ri := inner_function body env args st in
  let r := invoke rt ocv name env args st in
  final_state r = final_state ri
  /\ match outcome ri with
     | Returns _ =>
         events r = events ri ++ forwarding_events rt oc name args
         /\ outcome r
            = match forwarding_error rt oc name args with
              | Some e => Throws e
              | None => Returns VUndefined
              end
     | Throws e => events r = events ri /\ outcome r = Throws e
     end.
Proof.
  intros Hin. cbv zeta.
  rewrite (invoke_installed _ _ _ _ _ _ _ Hin), console_method_unfold.
  cbv zeta.
  destruct (outcome (inner_function body env args st)) as [v|e] eqn:Hri;
    cbn [final_state events outcome]; [|done].
  repeat split.
  rewrite inner_function_unfold in Hri.
  destruct (selfAlive env); [|by injection Hri as <-].
  destruct (bodyInPlace env); [|done].
  cbv zeta in Hri.
  destruct (outcome (body args (now env) st)); cbn in Hri; [|done].
  by injection Hri as <-.
Qed.

Lemma forwarding_after_inner_witness :
  In ("log"%string, body_forwarding kLog) (method_bodies example_runtime)
  /\ (let r := invoke example_runtime (VObject 1%N) "log" (live 5%float)
                 [VString "a"] fresh_state in
      events r
      = [ EvAddConsoleMessage
            {| msg_timestamp := 5%float; msg_type := kLog; msg_args := [VString "a"] |};
          EvSelfExecutor;
          EvOriginalCall 2%N 1%N [VString "a"] ]
      /\ outcome r = Returns VUndefined).
Proof.
  assert (Hin : In ("log"%string, body_forwarding kLog) (method_bodies example_runtime))
    by installed.
  split; [exact Hin|].
  destruct (forwarding_after_inner example_runtime (VObject 1%N) "log"
              (body_forwarding kLog) (live 5%float) [VString "a"] fresh_state Hin)
    as [_ H].
  exact H.
Defined.

(** C7, as stated, fails: the [error] function of the original console of
    the examples throws, and the call of the installed [error] ends with
    that error although its inner function returned. *)
Lemma forwarding_never_fails_as_stated_fails : ~ forwarding_never_fails_as_stated.
Proof.
  intros H.
  assert (Hin : In ("error"%string, body_forwarding kError)
                  (method_bodies example_runtime)) by installed.
  destruct (H example_runtime (VObject 1%N) "error"%string (body_forwarding kError)
              (live 0%float) [] fresh_state VUndefined Hin eq_refl) as [v' Hv'].
  rewrite (invoke_outcome _ _ _ _ _ _ _ Hin) in Hv'. discriminate Hv'.
Qed.

(** C8, amended.  In every call of an installed method after the target
    has been destroyed, no message is emitted and the delegate is not
    touched: the call does nothing but the forwarding step, it leaves the
    [ConsoleState] as it is, and it returns undefined, unless the look-up
    on the original console or the original function throws, in which case
    the call ends with that error. *)
Theorem detached_call_only_forwards rt ocv name env args st :
  In name console_method_names ->
  selfAlive env = false ->
  let oc := originalConsole_of ocv in
  let r := invoke rt ocv name env args st in
  messages r = []
  /\ events r = forwarding_events rt oc name args
  /\ final_state r = st
  /\ outcome r
     = match forwarding_error rt oc name args with
       | Some e => Throws e
       | None => Returns VUndefined
       end.
Proof.
  intros Hname Hdead. cbv zeta.
  apply (method_bodies_names rt) in Hname as [body Hin].
  destruct (invoke_detached rt ocv name body env args st Hin Hdead) as [Hev Hst].
  repeat split; try done.
  - unfold messages. rewrite Hev. apply forwarding_events_no_message.
  - rewrite (invoke_outcome _ _ _ _ _ _ _ Hin). unfold label_error, body_runs.
    by rewrite Hdead.
Qed.

Lemma detached_call_only_forwards_witness :
  (In "log"%string console_method_names /\ selfAlive (detached 5%float) = false)
  /\ (let r := invoke example_runtime (VObject 1%N) "log" (detached 5%float)
                 [VString "a"] fresh_state in
      events r = [EvOriginalCall 2%N 1%N [VString "a"]]
      /\ final_state r = fresh_state
      /\ outcome r = Returns VUndefined).
Proof.
  split; [split; [cbn; tauto|reflexivity]|].
  assert (Hin : In "log"%string console_method_names) by (cbn; tauto).
  destruct (detached_call_only_forwards example_runtime (VObject 1%N) "log"
              (detached 5%float) [VString "a"] fresh_state Hin eq_refl)
    as (_ & Hev & Hst & Hout).
  exact (conj Hev (conj Hst Hout)).
Defined.

(** C8, as stated, fails: after the target has been destroyed, the call of
    the installed [error] still ends with the error that the [error]
    function of the original console of the examples throws. *)
Lemma detached_completes_as_stated_fails : ~ detached_completes_as_stated.
Proof.
  intros H.
  assert (Hname : In "error"%string console_method_names) by (cbn; tauto).
  assert (Hin : In ("error"%string, body_forwarding kError)
                  (method_bodies example_runtime)) by installed.
  destruct (H example_runtime (VObject 1%N) "error"%string (detached 0%float) []
              fresh_state Hname eq_refl) as [_ [v Hv]].
  rewrite (invoke_outcome _ _ _ _ _ _ _ Hin) in Hv. discriminate Hv.
Qed.

(** When the body runs and returns, the strong reference is handed to
    [selfExecutor] after everything the body did with the delegate. *)
Lemma handoff_after_body body env args st v :
  body_runs env = true ->
  outcome (body args (now env) st) = Returns v ->
  events (inner_function body env args st)
  = events (body args (now env) st) ++ [EvSelfExecutor].
Proof.
  intros Halive Hb. rewrite (inner_function_runs _ _ _ _ Halive). cbv zeta.
  by rewrite Hb.
Qed.

(** C9.  The code at the failing input.  The target is alive, the body
    runs, and the conversion of the label to a string throws: the body ends
    with that error, the statement that hands the strong reference to [selfExecutor]
    is not reached, and the reference is released where it stands, on the
    JavaScript thread; the call ends with the error. *)
Theorem handoff_skipped_when_label_throws rt ocv name env args st e :
  In name label_method_names ->
  body_runs env = true ->
  label_of_args rt args = Throws e ->
  let r := invoke rt ocv name env args st in
  events r = [EvSelfReleasedInline]
  /\ ~ In EvSelfExecutor (events r)
  /\ outcome r = Throws e.
Proof.
  intros Hname Halive HL. cbv zeta.
  assert (Hev : events (invoke rt ocv name env args st) = [EvSelfReleasedInline]).
  { unfold label_method_names in Hname. cbn [In] in Hname.
    repeat (destruct Hname as [<-|Hname];
            [rewrite ?invoke_count, ?invoke_countReset, ?invoke_time,
               ?invoke_timeEnd, ?invoke_timeLog;
             rewrite console_method_unfold, (inner_function_runs _ _ _ _ Halive);
             rewrite ?body_count_unfold, ?body_countReset_unfold, ?body_time_unfold,
               ?body_timeEnd_unfold, ?body_timeLog_unfold, HL;
             reflexivity|]).
    destruct Hname. }
  rewrite Hev. split; [done|]. split.
  - intros [H|[]]. discriminate H.
  - assert (Hall : In name console_method_names).
    { unfold console_method_names. apply in_or_app. by left. }
    apply (method_bodies_names rt) in Hall as [body Hin].
    rewrite (invoke_outcome _ _ _ _ _ _ _ Hin). unfold label_error.
    rewrite Halive, HL.
    destruct (proj1 (body_runs_true env) Halive) as [-> ->]. cbn [andb negb].
    rewrite bool_decide_eq_true_2; [done|].
    by apply list_elem_of_In.
Qed.

Lemma handoff_skipped_when_label_throws_witness :
  (In "count"%string label_method_names
   /\ body_runs (live 5%float) = true
   /\ label_of_args example_runtime [VObject 9%N] = Throws (VString "no string"))
  /\ (let r := invoke example_runtime (VObject 1%N) "count" (live 5%float)
                 [VObject 9%N] fresh_state in
      events r = [EvSelfReleasedInline]
      /\ ~ In EvSelfExecutor (events r)
      /\ outcome r = Throws (VString "no string")).
Proof.
  assert (Hname : In "count"%string label_method_names) by (cbn; tauto).
  split; [by repeat split|].
  exact (handoff_skipped_when_label_throws example_runtime (VObject 1%N) "count"
           (live 5%float) [VObject 9%N] fresh_state (VString "no string")
           Hname eq_refl eq_refl).
Defined.

(** C10, amended.  Every call of an installed method that ends without an
    error returns undefined, whatever the arguments are, whether or not a
    message was emitted, and whatever the function of the original console
    returns.  And a call does end without an error when nothing in it
    throws: the host function finds its body in place where the target is
    alive, the conversion of the label to a string does not throw, and
    neither the look-up on the original console nor the original function
    throws. *)
Theorem returns_undefined_unless_thrown rt ocv name env args st :
  In name console_method_names ->
  let r := invoke rt ocv name env args st in
  (forall v, outcome r = Returns v -> v = VUndefined)
  /\ ((selfAlive env = true -> bodyInPlace env = true) ->
      label_error rt name env args = None ->
      forwarding_error rt (originalConsole_of ocv) name args = None ->
      outcome r = Returns VUndefined).
Proof.
  intros Hname. cbv zeta.
  apply (method_bodies_names rt) in Hname as [body Hin].
  rewrite (invoke_outcome _ _ _ _ _ _ _ Hin).
  split.
  - intros v.
    destruct (selfAlive env && negb (bodyInPlace env)); [done|].
    destruct (label_error rt name env args); [done|].
    destruct (forwarding_error rt (originalConsole_of ocv) name args); [done|].
    by intros [= <-].
  - intros Hbody -> ->.
    destruct (selfAlive env); [|done].
    by rewrite Hbody.
Qed.

Lemma returns_undefined_unless_thrown_witness :
  In "log"%string console_method_names
  /\ outcome (invoke example_runtime (VObject 1%N) "log" (live 5%float)
                [VString "a"] fresh_state)
     = Returns VUndefined.
Proof.
  assert (Hname : In "log"%string console_method_names) by (cbn; tauto).
  split; [exact Hname|].
  exact (proj2 (returns_undefined_unless_thrown example_runtime (VObject 1%N) "log"
                  (live 5%float) [VString "a"] fresh_state Hname)
           (fun _ => eq_refl) eq_refl eq_refl).
Defined.

(** C10, as stated, fails: the conversion of object 9 to a string throws,
    and [count] called with it ends with that error. *)
Lemma returns_undefined_as_stated_fails : ~ returns_undefined_as_stated.
Proof.
  intros H.
  assert (Hname : In "count"%string console_method_names) by (cbn; tauto).
  assert (Hin : In ("count"%string, body_count example_runtime)
                  (method_bodies example_runtime)) by installed.
  specialize (H example_runtime VUndefined "count"%string (live 0%float)
                [VObject 9%N] fresh_state Hname).
  rewrite (invoke_outcome _ _ _ _ _ _ _ Hin) in H. discriminate H.
Qed.

(** ** The installed console at work *)

(** [console.count()] twice, then [console.countReset()], then
    [console.count()] again, on a console installed over no original: where
    the library keeps the target of a moved-from [std::function], the last
    call reports ["default: 1"]; where it leaves it empty, the second call
    already throws. *)
Example count_reset_count :
  let script :=
    [ live_call "count" 1%float [];
      live_call "count" 2%float [VUndefined];
      live_call "countReset" 3%float [] ] in
  messages (script_call example_runtime VNull true
              (live_call "count" 4%float [VString "default"])
              (run_script example_runtime VNull true script fresh_installation))
  = [text_message 4%float kCount "default: 1"]
  /\ outcome (script_call example_runtime VNull false
                (live_call "count" 2%float [VUndefined])
                (run_script example_runtime VNull false
                   [live_call "count" 1%float []] fresh_installation))
     = Throws bad_function_call.
Proof. vm_compute. split; reflexivity. Qed.

(** [console.log("a", 1)] over the original console of the examples: the
    message, the hand-off of the strong reference, the call of the original
    [log]. *)
Example log_forwards :
  events (invoke example_runtime (VObject 1%N) "log" (live 5%float)
            [VString "a"; VNumber 1%float] fresh_state)
  = [ EvAddConsoleMessage
        {| msg_timestamp := 5%float;
           msg_type := kLog;
           msg_args := [VString "a"; VNumber 1%float] |};
      EvSelfExecutor;
      EvOriginalCall 2%N 1%N [VString "a"; VNumber 1%float] ].
Proof. vm_compute. reflexivity. Qed.

(** The [info] of the original console is not callable: nothing is
    forwarded.  The look-up of its [trace] throws: the call ends with that
    error, after the message. *)
Example info_and_trace :
  events (invoke example_runtime (VObject 1%N) "info" (live 5%float) [] fresh_state)
  = [ EvAddConsoleMessage
        {| msg_timestamp := 5%float; msg_type := kInfo; msg_args := [] |};
      EvSelfExecutor ]
  /\ (let r := invoke example_runtime (VObject 1%N) "trace" (live 5%float) []
                 fresh_state in
      outcome r = Throws (VString "getter")
      /\ events r
         = [ EvAddConsoleMessage
               {| msg_timestamp := 5%float; msg_type := kTrace; msg_args := [] |};
             EvSelfExecutor ]).
Proof. vm_compute. repeat split; reflexivity. Qed.

(** [console.time(5)], then [console.timeLog(5, "x")]: the number 5 is
    converted to the label ["5"]. *)
Example timeLog_number_label :
  messages (script_call example_runtime VNull false
              (live_call "timeLog" 10.25%float [VNumber 5%float; VString "x"])
              (run_script example_runtime VNull false
                 [live_call "time" 10%float [VNumber 5%float]] fresh_installation))
  = [{| msg_timestamp := 10.25%float;
        msg_type := kLog;
        msg_args := [VString "5: 0.250000 ms"; VString "x"] |}].
Proof. vm_compute. reflexivity. Qed.

(** * Further properties of the code *)

(** ** The installed methods *)

(** X12.  The handler installs a host function under nineteen names, each
    once: [count], [countReset], [time], [timeEnd], [timeLog], [assert] and
    the thirteen names of [kForwardingConsoleMethods].  No other name is an
    own property of the new console. *)
Theorem installs_nineteen_methods rt ocv name :
  let names :=
    [ "count"; "countReset"; "time"; "timeEnd"; "timeLog"; "assert";
      "clear"; "debug"; "dir"; "dirxml"; "error"; "group"; "groupCollapsed";
      "groupEnd"; "info"; "log"; "table"; "trace"; "warn" ]%string in
  (is_Some (installConsoleHandler rt ocv !! name : option HostFunction)
   <-> In name names)
  /\ NoDup names
  /\ size (installConsoleHandler rt ocv) = 19%nat.
Proof.
  cbv zeta. split; [|split].
  - rewrite <- (installed_names rt ocv name). reflexivity.
  - apply NoDup_ListNoDup. repeat (constructor; [cbn [In]; intuition discriminate|]).
    constructor.
  - unfold installConsoleHandler, installConsoleMethod, kForwardingConsoleMethods.
    cbn [fold_left fst snd].
    repeat (rewrite map_size_insert_None; [|by simplify_map_eq]).
    by rewrite map_size_empty.
Qed.

(** ** One call *)

(** The messages and the state that the body of an installed method
    leaves, for every name. *)
Lemma invoke_messages_state rt ocv name env args st :
  (exists body,
      In (name, body) (method_bodies rt)
      /\ messages (invoke rt ocv name env args st)
         = (if body_runs env then messages (body args (now env) st) else [])
      /\ final_state (invoke rt ocv name env args st)
         = (if body_runs env then final_state (body args (now env) st) else st))
  \/ (~ In name console_method_names
      /\ messages (invoke rt ocv name env args st) = []
      /\ final_state (invoke rt ocv name env args st) = st).
Proof.
  destruct (invoke_cases rt ocv name env args st) as [(body & Hin & ->)|[Hnot ->]].
  - left. exists body.
    by rewrite console_method_messages, console_method_state.
  - right. by repeat split.
Qed.

(** X9.  What a call hands to the delegate and what it does to the
    [ConsoleState] do not depend on the console that was installed before:
    they are the same with any previous console, callable or not, throwing
    or not, as with none. *)
Theorem interception_independent_of_original rt ocv name env args st :
  let r := invoke rt ocv name env args st in
  let r0 := invoke rt VUndefined name env args st in
  messages r = messages r0 /\ final_state r = final_state r0.
Proof.
  cbv zeta.
  destruct (invoke_messages_state rt ocv name env args st)
    as [(body & Hin & -> & ->)|(Hnot & -> & ->)].
  - rewrite (invoke_installed rt VUndefined name body env args st Hin).
    by rewrite console_method_messages, console_method_state.
  - destruct (invoke_messages_state rt VUndefined name env args st)
      as [(body & Hin & _)|(_ & -> & ->)]; [|done].
    exfalso. apply Hnot. apply (method_bodies_names rt). eauto.
Qed.

Ltac body_cases Hin :=
  unfold method_bodies, kForwardingConsoleMethods in Hin;
  cbn [map app fst snd In] in Hin.

Ltac unfold_bodies :=
  rewrite ?body_count_unfold, ?body_countReset_unfold, ?body_time_unfold,
    ?body_timeEnd_unfold, ?body_timeLog_unfold, ?body_assert_unfold,
    ?body_forwarding_unfold.

(** X2.  Every call hands at most one message to the delegate, and the
    message carries the timestamp that the call took when it started. *)
Theorem at_most_one_message rt ocv name env args st :
  let r := invoke rt ocv name env args st in
  messages r = []
  \/ exists m, messages r = [m] /\ msg_timestamp m = now env.
Proof.
  cbv zeta.
  destruct (invoke_messages_state rt ocv name env args st)
    as [(body & Hin & -> & _)|(_ & -> & _)]; [|by left].
  destruct (body_runs env); [|by left].
  body_cases Hin. unfold messages.
  repeat (destruct Hin as [Hin|Hin];
          [injection Hin as <- <-; unfold_bodies;
           try (destruct (label_of_args rt args) as [l|e]; cbn [events messages_of flat_map];
                [|by left]);
           try destruct (countMap st !! l);
           try destruct (timerTable st !! l);
           try destruct (match args with arg0 :: _ => truthy arg0 | [] => false end);
           cbn; eauto|]).
  destruct Hin.
Qed.

(** X3.  A message of kind Warning comes from [warn], or from a misuse:
    [countReset] for a label that has no counter, [time] for a label that
    has a timer, [timeEnd] or [timeLog] for a label that has none.  So
    [count], [assert] and the other passthrough methods never hand a
    Warning to the delegate. *)
Theorem warning_only_on_misuse rt ocv name env args st m :
  In m (messages (invoke rt ocv name env args st)) ->
  msg_type m = kWarning ->
  name = "warn"%string
  \/ exists l,
       label_of_args rt args = Returns l
       /\ ((name = "countReset"%string /\ countMap st !! l = None)
           \/ (name = "time"%string /\ is_Some (timerTable st !! l))
           \/ ((name = "timeEnd"%string \/ name = "timeLog"%string)
               /\ timerTable st !! l = None)).
Proof.
  destruct (invoke_messages_state rt ocv name env args st)
    as [(body & Hin & -> & _)|(_ & -> & _)]; [|intros []].
  destruct (body_runs env); [|intros []].
  body_cases Hin. unfold messages.
  repeat (destruct Hin as [Hin|Hin];
          [injection Hin as <- <-; unfold_bodies;
           try (destruct (label_of_args rt args) as [l|e];
                cbn [events messages_of flat_map]; [|by intros []]);
           try destruct (countMap st !! l) eqn:Hc;
           try destruct (timerTable st !! l) eqn:Ht;
           try destruct (match args with arg0 :: _ => truthy arg0 | [] => false end);
           cbn; intros Hm Hk; try (exfalso; exact Hm);
           destruct Hm as [<-|[]]; try discriminate Hk;
           unfold is_Some; eauto 10|]).
  destruct Hin.
Qed.

Lemma warning_only_on_misuse_witness :
  let m := text_message 5%float kWarning "Timer 'a' does not exist" in
  (In m (messages (invoke example_runtime VNull "timeLog" (live 5%float)
                     [VString "a"; VString "x"] fresh_state))
   /\ msg_type m = kWarning)
  /\ ("timeLog"%string = "warn"%string
      \/ exists l,
           label_of_args example_runtime [VString "a"; VString "x"] = Returns l
           /\ (("timeLog"%string = "countReset"%string
                /\ countMap fresh_state !! l = None)
               \/ ("timeLog"%string = "time"%string
                   /\ is_Some (timerTable fresh_state !! l))
               \/ (("timeLog"%string = "timeEnd"%string
                    \/ "timeLog"%string = "timeLog"%string)
                   /\ timerTable fresh_state !! l = None))).
Proof.
  cbv zeta.
  assert (Hin : In (text_message 5%float kWarning "Timer 'a' does not exist")
                  (messages (invoke example_runtime VNull "timeLog" (live 5%float)
                               [VString "a"; VString "x"] fresh_state)))
    by (vm_compute; tauto).
  split; [split; [exact Hin|reflexivity]|].
  exact (warning_only_on_misuse example_runtime VNull "timeLog" (live 5%float)
           [VString "a"; VString "x"] fresh_state _ Hin eq_refl).
Defined.

(** X7.  When their body runs, [timeEnd] and [timeLog] for a label that
    has no timer hand the Warning ["Timer '<label>' does not exist"] to the
    delegate, without the further arguments of the call, and leave the
    [ConsoleState] as it is: no entry is made. *)
Theorem missing_timer_warns rt ocv name env args l st :
  name = "timeEnd"%string \/ name = "timeLog"%string ->
  body_runs env = true ->
  label_of_args rt args = Returns l ->
  timerTable st !! l = None ->
  let r := invoke rt ocv name env args st in
  messages r
  = [text_message (now env) kWarning ("Timer '" +:+ l +:+ "' does not exist")]
  /\ final_state r = st.
Proof.
  intros [->| ->] Halive HL Hl; cbv zeta.
  - pose proof (timeEnd_call rt ocv env args l st Halive HL) as H.
    cbv zeta in H. by rewrite Hl in H.
  - pose proof (timeLog_call rt ocv env args l st Halive HL) as H.
    cbv zeta in H. by rewrite Hl in H.
Qed.

Lemma missing_timer_warns_witness :
  (("timeLog"%string = "timeEnd"%string \/ "timeLog"%string = "timeLog"%string)
   /\ body_runs (live 5%float) = true
   /\ label_of_args example_runtime [VNull; VString "x"] = Returns "null"%string
   /\ timerTable fresh_state !! "null"%string = None)
  /\ (let r := invoke example_runtime VNull "timeLog" (live 5%float)
                 [VNull; VString "x"] fresh_state in
      messages r = [text_message 5%float kWarning "Timer 'null' does not exist"]
      /\ final_state r = fresh_state).
Proof.
  split; [repeat split; tauto|].
  exact (missing_timer_warns example_runtime VNull "timeLog" (live 5%float)
           [VNull; VString "x"] "null" fresh_state (or_intror eq_refl)
           eq_refl eq_refl eq_refl).
Defined.

(** ** The counters *)

(** X4.  The counters across a call.  A counter that a call leaves was
    there before, or was made, with the value 1, by a call of [count] for
    that label; a counter that exists is never removed; and no method but
    [count] and [countReset] changes [countMap]. *)
Theorem countMap_discipline rt ocv name env args st l :
  let st' := final_state (invoke rt ocv name env args st) in
  (forall v,
      countMap st' !! l = Some v ->
      is_Some (countMap st !! l)
      \/ (name = "count"%string
          /\ selfAlive env = true
          /\ label_of_args rt args = Returns l
          /\ v = 1))
  /\ (is_Some (countMap st !! l) -> is_Some (countMap st' !! l))
  /\ (name <> "count"%string -> name <> "countReset"%string ->
      countMap st' = countMap st).
Proof.
  cbv zeta. rewrite countMap_step.
  destruct (body_runs env) eqn:Hruns; [|by eauto].
  apply body_runs_true in Hruns as [Halive _].
  unfold countMap_after.
  destruct (label_of_args rt args) as [l'|e]; [|by eauto].
  destruct (String.eqb_spec name "count") as [->|Hcount].
  - split; [|split; [|done]].
    + intros v Hv. destruct (decide (l' = l)) as [->|Hne].
      * destruct (countMap st !! l) as [c|] eqn:Hc; [by eauto|].
        rewrite lookup_insert_eq in Hv. injection Hv as <-. by right.
      * destruct (countMap st !! l'); rewrite lookup_insert_ne in Hv by done;
          by eauto.
    + intros [v Hv]. destruct (decide (l' = l)) as [->|Hne].
      * destruct (countMap st !! l); rewrite lookup_insert_eq; by eauto.
      * destruct (countMap st !! l'); rewrite ?lookup_insert_ne by done;
          by eauto.
  - destruct (String.eqb_spec name "countReset") as [->|Hreset];
      [|by eauto].
    split; [|split; [|done]].
    + intros v Hv. destruct (decide (l' = l)) as [->|Hne].
      * destruct (countMap st !! l) as [c|] eqn:Hc; [by eauto|].
        rewrite Hc in Hv. discriminate Hv.
      * destruct (countMap st !! l'); rewrite ?lookup_insert_ne in Hv by done;
          by eauto.
    + intros [v Hv]. destruct (decide (l' = l)) as [->|Hne].
      * rewrite Hv, lookup_insert_eq. by eauto.
      * destruct (countMap st !! l'); rewrite ?lookup_insert_ne by done;
          by eauto.
Qed.

(** X5.  Counters and timers do not mix, and labels do not mix.  No method
    but [time] and [timeEnd] changes [timerTable], no method but [count] and
    [countReset] changes [countMap], and a call for one label leaves the
    counter and the timer of every other label as they are. *)
Theorem labels_and_tables_isolated rt ocv name env args st :
  let st' := final_state (invoke rt ocv name env args st) in
  (name <> "time"%string -> name <> "timeEnd"%string ->
   timerTable st' = timerTable st)
  /\ (name <> "count"%string -> name <> "countReset"%string ->
      countMap st' = countMap st)
  /\ (forall l l',
         label_of_args rt args = Returns l' ->
         l' <> l ->
         countMap st' !! l = countMap st !! l
         /\ timerTable st' !! l = timerTable st !! l).
Proof.
  cbv zeta. rewrite countMap_step, timerTable_step.
  destruct (body_runs env); [|done].
  unfold countMap_after, timerTable_after.
  destruct (label_of_args rt args) as [l0|e]; [|done].
  split; [|split].
  - intros Htime Hend.
    destruct (String.eqb_spec name "time"); [done|].
    by destruct (String.eqb_spec name "timeEnd").
  - intros Hcount Hreset.
    destruct (String.eqb_spec name "count"); [done|].
    by destruct (String.eqb_spec name "countReset").
  - intros l l' [= ->] Hne. split.
    + destruct (name =? "count")%string;
        [destruct (countMap st !! l'); by rewrite lookup_insert_ne|].
      destruct (name =? "countReset")%string; [|done].
      destruct (countMap st !! l'); [by rewrite lookup_insert_ne|done].
    + destruct (name =? "time")%string;
        [destruct (timerTable st !! l'); [done|by rewrite lookup_insert_ne]|].
      destruct (name =? "timeEnd")%string; [|done].
      by rewrite lookup_delete_ne.
Qed.

(** A live [countReset(L)] on a label that has a counter leaves the
    counter at 0. *)
Lemma countReset_call_sets_zero rt ocv env args L st c :
  body_runs env = true ->
  label_of_args rt args = Returns L ->
  countMap st !! L = Some c ->
  countMap (final_state (invoke rt ocv "countReset" env args st)) !! L = Some 0.
Proof.
  intros Halive HL Hc.
  rewrite invoke_countReset, console_method_state, Halive.
  rewrite body_countReset_unfold, HL, Hc. apply lookup_insert_eq.
Qed.

(** The value of the counter of [L] after a sequence of calls without
    [countReset(L)], as long as it fits an [int]: every call [count(L)] adds
    one. *)
Lemma counter_value_after_calls rt ocv L calls :
  forall st,
    0 <= counter_value st L ->
    Forall (fun c => calls_with_label rt "countReset" L c = false) calls ->
    counter_value st L + Z.of_nat (count_calls rt L calls) <= INT_MAX ->
    counter_value (run_calls rt ocv calls st) L
    = counter_value st L + Z.of_nat (count_calls rt L calls).
Proof.
  unfold INT_MAX, counter_value.
  induction calls as [|c calls IH]; intros st Hst Hreset Hmax.
  - unfold count_calls. cbn [List.filter length run_calls]. lia.
  - apply Forall_cons in Hreset as [Hc Hreset].
    rewrite count_calls_cons in Hmax |- *. cbn [run_calls].
    destruct (calls_with_label rt "count" L c) eqn:Hcount.
    + assert (Hstep : default 0 (countMap (final_state (run_call rt ocv c st)) !! L)
                      = default 0 (countMap st !! L) + 1).
      { rewrite (countMap_after_count _ _ _ _ _ Hcount).
        destruct (countMap st !! L) as [v|]; cbn [default option_map from_option] in *;
          [|done].
        apply int_wrap_small. unfold INT_MIN, INT_MAX. lia. }
      rewrite IH; [|lia|done|lia]. lia.
    + rewrite IH; rewrite ?(countMap_after_other _ _ _ _ _ Hcount Hc);
        [|lia|done|lia]. lia.
Qed.

(** Where every call finds its body in place: after [countReset(L)] on a
    label that has a counter, and then any calls of which [k - 1] are calls
    [count(L)] and none is a further [countReset(L)], the next [count(L)]
    reports ["<L>: <k>"]. *)
Lemma countReset_restarts_calls rt ocv L env0 args0 calls args timestampMs st :
  body_runs env0 = true ->
  label_of_args rt args0 = Returns L ->
  label_of_args rt args = Returns L ->
  is_Some (countMap st !! L) ->
  Forall (fun c => calls_with_label rt "countReset" L c = false) calls ->
  let k := S (count_calls rt L calls) in
  Z.of_nat k <= 2147483647 ->
  let st0 := final_state (invoke rt ocv "countReset" env0 args0 st) in
  messages (invoke rt ocv "count" (live timestampMs) args
              (run_calls rt ocv calls st0))
  = [count_message timestampMs L (Z.of_nat k)].
Proof.
  intros Halive0 HL0 HL [c Hc] Hreset k Hk st0.
  assert (Hst0 : counter_value st0 L = 0).
  { subst st0. unfold counter_value.
    pose proof (countReset_call_sets_zero rt ocv env0 args0 L st c Halive0 HL0 Hc)
      as ->. done. }
  pose proof (counter_value_after_calls rt ocv L calls st0) as Hval.
  rewrite Hst0 in Hval. specialize (Hval ltac:(lia) Hreset).
  cbn [Z.add] in Hval. specialize (Hval ltac:(unfold INT_MAX; lia)).
  destruct (count_call rt ocv (live timestampMs) args L
              (run_calls rt ocv calls st0) eq_refl HL) as [-> _].
  unfold counter_value in Hval. subst k.
  destruct (countMap (run_calls rt ocv calls st0) !! L) as [v|];
    cbn in Hval.
  - rewrite int_wrap_small by (unfold INT_MIN, INT_MAX; lia).
    do 2 f_equal. lia.
  - do 2 f_equal. lia.
Qed.

(** X6.  Where the standard library keeps the target of a moved-from
    [std::function], so that a host function can run its body more than
    once, [countReset] restarts the numbering.  After [countReset(L)] on a
    label that has a counter, and then any calls of which [k - 1] are calls
    [count(L)] and none is a further [countReset(L)], the next [count(L)]
    reports ["<L>: <k>"], whatever the counter was before the reset. *)
Theorem countReset_restarts rt ocv L t0 args0 calls args timestampMs i :
  label_of_args rt args0 = Returns L ->
  label_of_args rt args = Returns L ->
  is_Some (countMap (console_state i) !! L) ->
  Forall (fun c => calls_with_label rt "countReset" L (in_place c) = false) calls ->
  let k := S (count_calls rt L (map in_place calls)) in
  Z.of_nat k <= 2147483647 ->
  let i0 := after_call rt ocv true (live_call "countReset" t0 args0) i in
  messages (script_call rt ocv true (live_call "count" timestampMs args)
              (run_script rt ocv true calls i0))
  = [count_message timestampMs L (Z.of_nat k)].
Proof.
  intros HL0 HL Hsome Hreset k Hk i0.
  rewrite script_call_kept, run_script_kept. subst i0. unfold after_call.
  cbn [console_state]. rewrite script_call_kept.
  apply (countReset_restarts_calls rt ocv L (live t0)); try done.
  by apply List.Forall_map.
Qed.

Lemma countReset_restarts_witness :
  let i := {| console_state := {| countMap := {["a"%string := 41]}; timerTable := ∅ |};
              moved_out := {["count"%string]} |} in
  let calls :=
    [ live_call "count" 2%float [VString "a"];
      live_call "countReset" 3%float [VString "b"];
      live_call "log" 4%float [VString "a"] ] in
  (label_of_args example_runtime [VString "a"] = Returns "a"%string
   /\ is_Some (countMap (console_state i) !! "a"%string)
   /\ Forall (fun c => calls_with_label example_runtime "countReset" "a" (in_place c)
                       = false) calls
   /\ Z.of_nat (S (count_calls example_runtime "a" (map in_place calls)))
      <= 2147483647)
  /\ messages (script_call example_runtime VNull true
                 (live_call "count" 5%float [VString "a"])
                 (run_script example_runtime VNull true calls
                    (after_call example_runtime VNull true
                       (live_call "countReset" 1%float [VString "a"]) i)))
     = [text_message 5%float kCount "a: 2"].
Proof.
  cbv zeta.
  assert (Hsome : is_Some (({["a"%string := 41]} : gmap string Z) !! "a"%string))
    by (exists 41; reflexivity).
  assert (Hreset :
    Forall (fun c => calls_with_label example_runtime "countReset" "a" (in_place c)
                     = false)
      [ live_call "count" 2%float [VString "a"];
        live_call "countReset" 3%float [VString "b"];
        live_call "log" 4%float [VString "a"] ]) by (repeat constructor).
  split; [split; [reflexivity|split; [exact Hsome|
          split; [exact Hreset|by vm_compute]]]|].
  refine (countReset_restarts example_runtime VNull "a" 1%float [VString "a"]
            _ [VString "a"] 5%float
            {| console_state := {| countMap := {["a"%string := 41]}; timerTable := ∅ |};
               moved_out := {["count"%string]} |}
            eq_refl eq_refl Hsome Hreset _).
  by vm_compute.
Defined.

(** ** The timers *)

(** Where every call finds its body in place: [time(L)], [timeEnd(L)],
    [time(L)] emits no Warning at the second [time] and records the new
    start, and a [timeLog(L)] after it measures from the new start. *)
Lemma timer_restarts_calls rt ocv L t0 t1 t2 t3 rest st :
  timerTable st !! L = None ->
  let s1 := final_state (invoke rt ocv "time" (live t0) [VString L] st) in
  let s2 := final_state (invoke rt ocv "timeEnd" (live t1) [VString L] s1) in
  let r3 := invoke rt ocv "time" (live t2) [VString L] s2 in
  let r4 := invoke rt ocv "timeLog" (live t3) (VString L :: rest) (final_state r3) in
  messages r3 = []
  /\ timerTable (final_state r3) !! L = Some t2
  /\ messages r4
     = [{| msg_timestamp := t3;
           msg_type := kLog;
           msg_args := VString (elapsed_text L t3 t2) :: rest |}]
  /\ countMap (final_state r4) = countMap st.
Proof.
  intros Hnone. cbv zeta.
  pose proof (time_call rt ocv (live t0) [VString L] L st eq_refl eq_refl) as H0.
  cbv zeta in H0. rewrite Hnone in H0. destruct H0 as [_ ->].
  pose proof (timeEnd_call rt ocv (live t1) [VString L] L
                {| countMap := countMap st;
                   timerTable := <[L := now (live t0)]> (timerTable st) |}
                eq_refl eq_refl) as H1.
  cbv zeta in H1. cbn [timerTable countMap] in H1.
  rewrite lookup_insert_eq in H1. destruct H1 as [_ ->].
  pose proof (time_call rt ocv (live t2) [VString L] L
                {| countMap := countMap st;
                   timerTable := delete L (<[L := now (live t0)]> (timerTable st)) |}
                eq_refl eq_refl) as H2.
  cbv zeta in H2. cbn [timerTable countMap] in H2.
  rewrite lookup_delete_eq in H2. destruct H2 as [-> ->].
  cbn [timerTable countMap now live].
  split; [done|]. split; [apply lookup_insert_eq|].
  destruct (timeLog_call rt ocv (live t3) (VString L :: rest) L
              {| countMap := countMap st;
                 timerTable := <[L := t2]> (delete L (<[L := t0]> (timerTable st))) |}
              eq_refl eq_refl) as [Hm ->].
  cbn [timerTable countMap now live] in Hm.
  rewrite lookup_insert_eq in Hm. by rewrite Hm.
Qed.

(** X8.  Where the standard library keeps the target of a moved-from
    [std::function], so that a host function can run its body more than
    once, a timer that was ended can be started again: [time(L)],
    [timeEnd(L)], [time(L)] emits no Warning at the second [time], records
    the new start, and a [timeLog(L)] after it measures from the new start
    and passes its further arguments on.  None of the four calls touches
    the counters. *)
Theorem timer_restarts rt ocv L t0 t1 t2 t3 rest i :
  timerTable (console_state i) !! L = None ->
  let i2 := run_script rt ocv true
              [live_call "time" t0 [VString L]; live_call "timeEnd" t1 [VString L]] i in
  let r3 := script_call rt ocv true (live_call "time" t2 [VString L]) i2 in
  let i3 := after_call rt ocv true (live_call "time" t2 [VString L]) i2 in
  let r4 := script_call rt ocv true (live_call "timeLog" t3 (VString L :: rest)) i3 in
  messages r3 = []
  /\ timerTable (final_state r3) !! L = Some t2
  /\ messages r4
     = [{| msg_timestamp := t3;
           msg_type := kLog;
           msg_args := VString (elapsed_text L t3 t2) :: rest |}]
  /\ countMap (final_state r4) = countMap (console_state i).
Proof.
  intros Hnone.
  exact (timer_restarts_calls rt ocv L t0 t1 t2 t3 rest (console_state i) Hnone).
Qed.

Lemma timer_restarts_witness :
  timerTable (console_state fresh_installation) !! "a"%string = None
  /\ (let i2 := run_script example_runtime VNull true
                  [ live_call "time" 100%float [VString "a"];
                    live_call "timeEnd" 110%float [VString "a"] ]
                  fresh_installation in
      let r3 := script_call example_runtime VNull true
                  (live_call "time" 200%float [VString "a"]) i2 in
      let i3 := after_call example_runtime VNull true
                  (live_call "time" 200%float [VString "a"]) i2 in
      let r4 := script_call example_runtime VNull true
                  (live_call "timeLog" 203.5%float [VString "a"; VBool true]) i3 in
      messages r3 = []
      /\ messages r4
         = [{| msg_timestamp := 203.5%float;
               msg_type := kLog;
               msg_args := [VString "a: 3.500000 ms"; VBool true] |}]).
Proof.
  split; [reflexivity|].
  destruct (timer_restarts example_runtime VNull "a" 100%float 110%float 200%float
              203.5%float [VBool true] fresh_installation eq_refl)
    as (H3 & _ & H4 & _).
  exact (conj H3 H4).
Defined.

(** ** The order of events and the errors *)

(** A body does nothing but hand messages to the delegate. *)
Lemma body_events_are_messages rt name body args ts st :
  In (name, body) (method_bodies rt) ->
  events (body args ts st) = map EvAddConsoleMessage (messages (body args ts st)).
Proof.
  intros Hin. body_cases Hin. unfold messages.
  repeat (destruct Hin as [Hin|Hin];
          [injection Hin as <- <-; unfold_bodies;
           try (destruct (label_of_args rt args) as [l|e];
                cbn [events messages_of flat_map]; [|done]);
           try destruct (countMap st !! l);
           try destruct (timerTable st !! l);
           try destruct (match args with arg0 :: _ => truthy arg0 | [] => false end);
           done|]).
  destruct Hin.
Qed.

Lemma label_error_live rt name env args :
  body_runs env = true ->
  label_error rt name (live (now env)) args = label_error rt name env args.
Proof. intros Halive. unfold label_error. by rewrite Halive. Qed.

(** X10.  The order of a call that runs to its forwarding step: when the
    body runs and the label converts, a call of an installed method
    first hands its messages to the delegate, then hands the strong
    reference to [selfExecutor], exactly once, and only then calls the
    original console. *)
Theorem handoff_once_in_order rt ocv name env args st :
  In name console_method_names ->
  body_runs env = true ->
  label_error rt name env args = None ->
  let r := invoke rt ocv name env args st in
  events r
  = map EvAddConsoleMessage (messages r)
    ++ [EvSelfExecutor]
    ++ forwarding_events rt (originalConsole_of ocv) name args.
Proof.
  intros Hname Halive Hlabel. cbv zeta.
  apply (method_bodies_names rt) in Hname as [body Hin].
  rewrite (invoke_installed _ _ _ _ _ _ _ Hin), console_method_messages, Halive.
  rewrite console_method_unfold, (inner_function_runs _ _ _ _ Halive). cbv zeta.
  rewrite (body_outcome rt name body args (now env) st Hin),
    (label_error_live _ _ _ _ Halive), Hlabel.
  cbn [outcome events].
  rewrite (body_events_are_messages rt name body args (now env) st Hin).
  by rewrite <- app_assoc.
Qed.

Lemma handoff_once_in_order_witness :
  (In "count"%string console_method_names
   /\ body_runs (live 5%float) = true
   /\ label_error example_runtime "count" (live 5%float) [VNumber 7%float] = None)
  /\ events (invoke example_runtime (VObject 1%N) "count" (live 5%float)
               [VNumber 7%float] fresh_state)
     = [EvAddConsoleMessage (text_message 5%float kCount "7: 1"); EvSelfExecutor].
Proof.
  assert (Hname : In "count"%string console_method_names) by (cbn; tauto).
  split; [by repeat split|].
  exact (handoff_once_in_order example_runtime (VObject 1%N) "count" (live 5%float)
           [VNumber 7%float] fresh_state Hname eq_refl eq_refl).
Defined.

(** X11.  A call of an installed method that ends with an error is of
    one of three sorts.  The host function found its body moved out while
    the target was alive, and the error is [std::bad_function_call]; or the
    conversion of the label threw: in both cases the call has handed nothing
    to the delegate, has left the [ConsoleState] as it was and has not
    called the original console.  Or the error comes from the forwarding
    step. *)
Theorem thrown_error_cases rt ocv name env args st e :
  In name console_method_names ->
  let r := invoke rt ocv name env args st in
  outcome r = Throws e ->
  (selfAlive env = true /\ bodyInPlace env = false
   /\ e = bad_function_call
   /\ messages r = []
   /\ final_state r = st
   /\ Forall (fun ev => is_original_call ev = false) (events r))
  \/ (label_error rt name env args = Some e
      /\ messages r = []
      /\ final_state r = st
      /\ Forall (fun ev => is_original_call ev = false) (events r))
  \/ (label_error rt name env args = None
      /\ forwarding_error rt (originalConsole_of ocv) name args = Some e).
Proof.
  intros Hname. cbv zeta.
  destruct (method_bodies_names rt name) as [[body Hin] _]; [done|].
  pose proof (invoke_installed rt ocv name body env args st Hin) as Heq.
  rewrite (invoke_outcome _ _ _ _ _ _ _ Hin).
  destruct (selfAlive env && negb (bodyInPlace env)) eqn:Hgone.
  { apply andb_true_iff in Hgone as [Halive Hbody%negb_true_iff].
    intros [= <-]. left.
    destruct (call_without_body rt ocv name env args st Hname Halive Hbody)
      as (_ & Hev & Hm & Hs).
    rewrite Hev, Hm, Hs. repeat split; try done. by repeat constructor. }
  destruct (label_error rt name env args) as [e'|] eqn:Hlabel.
  - intros [= ->]. right. left. split; [done|].
    unfold label_error in Hlabel.
    destruct (body_runs env) eqn:Hruns; [|discriminate Hlabel].
    rewrite Heq, console_method_messages, console_method_state, Hruns.
    rewrite console_method_unfold, (inner_function_runs _ _ _ _ Hruns). cbv zeta.
    pose proof (body_outcome rt name body args (now env) st Hin) as Hout.
    unfold label_error in Hout. cbn [live body_runs selfAlive bodyInPlace] in Hout.
    cbn [andb] in Hlabel, Hout.
    destruct (bool_decide (name ∈ label_method_names)) eqn:Hmem;
      [|discriminate Hlabel].
    destruct (label_of_args rt args) as [l|e''] eqn:HL; [discriminate Hlabel|].
    rewrite Hout. cbn [outcome events final_state].
    apply bool_decide_eq_true_1, list_elem_of_In in Hmem.
    unfold label_method_names in Hmem. cbn [In] in Hmem.
    unfold messages.
    repeat (destruct Hmem as [<-|Hmem];
            [body_cases Hin;
             repeat (destruct Hin as [Hin|Hin];
                     [first [ injection Hin as <-; unfold_bodies; rewrite HL;
                              cbn; repeat split; by repeat constructor
                            | discriminate Hin ]|]);
             destruct Hin|]).
    destruct Hmem.
  - destruct (forwarding_error rt (originalConsole_of ocv) name args) as [e'|];
      [|discriminate].
    intros [= ->]. right. by right.
Qed.

Lemma thrown_error_cases_witness :
  (In "timeEnd"%string console_method_names
   /\ outcome (invoke example_runtime (VObject 1%N) "timeEnd" (live 5%float)
                 [VObject 9%N] fresh_state)
      = Throws (VString "no string"))
  /\ final_state (invoke example_runtime (VObject 1%N) "timeEnd" (live 5%float)
                    [VObject 9%N] fresh_state)
     = fresh_state.
Proof.
  assert (Hname : In "timeEnd"%string console_method_names) by (cbn; tauto).
  split; [split; [exact Hname|reflexivity]|].
  destruct (thrown_error_cases example_runtime (VObject 1%N) "timeEnd" (live 5%float)
              [VObject 9%N] fresh_state (VString "no string") Hname eq_refl)
    as [(_ & _ & _ & _ & Hst & _)|[(_ & _ & Hst & _)|[Hlabel _]]].
  - exact Hst.
  - exact Hst.
  - discriminate Hlabel.
Defined.

(** ** The previous console *)

(** X1.  When the global [console] was not an object before the handler
    ran (undefined, null, a number, a string, ...), no original console is
    captured: no call of an installed method forwards anything, and such a
    call returns undefined unless the host function finds its body moved
    out while the target is alive, or the conversion of its label throws. *)
Theorem no_original_console_no_forwarding rt ocv name env args st :
  In name console_method_names ->
  isObject ocv = false ->
  let r := invoke rt ocv name env args st in
  Forall (fun ev => is_original_call ev = false) (events r)
  /\ outcome r
     = if selfAlive env && negb (bodyInPlace env) then Throws bad_function_call
       else
         match label_error rt name env args with
         | Some e => Throws e
         | None => Returns VUndefined
         end.
Proof.
  intros Hname Hobj. cbv zeta.
  assert (Hnone : originalConsole_of ocv = None) by (by destruct ocv).
  apply (method_bodies_names rt) in Hname as [body Hin].
  rewrite (invoke_outcome _ _ _ _ _ _ _ Hin), Hnone. cbn [forwarding_error].
  split; [|done].
  rewrite (invoke_installed _ _ _ _ _ _ _ Hin), console_method_unfold,
    inner_function_unfold, Hnone.
  cbv zeta. cbn [forwarding_events forwarding_error].
  destruct (selfAlive env); cbn [outcome events]; [|by constructor].
  destruct (bodyInPlace env); cbn [outcome events]; [|by repeat constructor].
  destruct (outcome (body args (now env) st)); cbn [outcome events];
    rewrite ?app_nil_r, (body_events_are_messages rt name body args (now env) st Hin);
    apply Forall_app; split; try (by repeat constructor);
    apply Forall_forall; by intros ev (m & -> & _)%list_elem_of_fmap.
Qed.

Lemma no_original_console_no_forwarding_witness :
  (In "log"%string console_method_names
   /\ isObject (VString "console") = false)
  /\ events (invoke example_runtime (VString "console") "log" (live 5%float)
               [VString "a"] fresh_state)
     = [ EvAddConsoleMessage
           {| msg_timestamp := 5%float; msg_type := kLog; msg_args := [VString "a"] |};
         EvSelfExecutor ]
  /\ outcome (invoke example_runtime (VString "console") "log" (live 5%float)
                [VString "a"] fresh_state)
     = Returns VUndefined.
Proof.
  assert (Hname : In "log"%string console_method_names) by (cbn; tauto).
  split; [split; [exact Hname|reflexivity]|].
  split; [reflexivity|].
  exact (proj2 (no_original_console_no_forwarding example_runtime (VString "console")
                  "log" (live 5%float) [VString "a"] fresh_state Hname eq_refl)).
Defined.

(** ** After the target is gone *)

(** X13.  Once the target has been destroyed the counters and timers are
    frozen: a sequence of calls, of any methods with any arguments, made
    while the weak reference cannot be locked leaves the [ConsoleState]
    exactly as it was. *)
Theorem detached_calls_freeze_state rt ocv calls st :
  Forall (fun c => selfAlive (call_env c) = false) calls ->
  run_calls rt ocv calls st = st.
Proof.
  induction 1 as [|c calls Hc _ IH]; [done|].
  cbn [run_calls]. unfold run_call.
  destruct (invoke_messages_state rt ocv (call_name c) (call_env c) (call_args c) st)
    as [(body & _ & _ & ->)|(_ & _ & ->)]; [|done].
  unfold body_runs. by rewrite Hc.
Qed.

Lemma detached_calls_freeze_state_witness :
  let st := {| countMap := {["a"%string := 3]};
               timerTable := {["t"%string := 10%float]} |} in
  let calls :=
    [ {| call_name := "count"; call_env := detached 20%float;
         call_args := [VString "a"] |};
      {| call_name := "timeEnd"; call_env := detached 21%float;
         call_args := [VString "t"] |};
      {| call_name := "countReset"; call_env := detached 22%float;
         call_args := [VObject 9%N] |} ]%string in
  Forall (fun c => selfAlive (call_env c) = false) calls
  /\ run_calls example_runtime (VObject 1%N) calls st = st.
Proof.
  cbv zeta.
  assert (Hdead :
    Forall (fun c => selfAlive (call_env c) = false)
      [ {| call_name := "count"; call_env := detached 20%float;
           call_args := [VString "a"] |};
        {| call_name := "timeEnd"; call_env := detached 21%float;
           call_args := [VString "t"] |};
        {| call_name := "countReset"; call_env := detached 22%float;
           call_args := [VObject 9%N] |} ]%string) by (repeat constructor).
  split; [exact Hdead|].
  exact (detached_calls_freeze_state example_runtime (VObject 1%N) _ _ Hdead).
Defined.

(** ** The label is all that counts *)

(** X14.  [count], [countReset], [time] and [timeEnd] look at their
    arguments only to find the label: two calls whose argument lists give
    the same label (or the same conversion error) hand the same messages to
    the delegate and leave the same state.  So [count("a", 1, 2)] is
    [count("a")], and [timeEnd()] ends the timer that [time("default")]
    started. *)
Theorem only_the_label_matters rt ocv name env args args' st :
  In name [ "count"; "countReset"; "time"; "timeEnd" ]%string ->
  label_of_args rt args = label_of_args rt args' ->
  let r := invoke rt ocv name env args st in
  let r' := invoke rt ocv name env args' st in
  messages r = messages r' /\ final_state r = final_state r'.
Proof.
  intros Hname HL. cbv zeta. cbn [In] in Hname.
  repeat (destruct Hname as [<-|Hname];
          [rewrite ?invoke_count, ?invoke_countReset, ?invoke_time, ?invoke_timeEnd;
           rewrite !console_method_messages, !console_method_state;
           unfold messages; unfold_bodies; by rewrite HL|]).
  destruct Hname.
Qed.

Lemma only_the_label_matters_witness :
  (In "timeEnd"%string [ "count"; "countReset"; "time"; "timeEnd" ]%string
   /\ label_of_args example_runtime [] = label_of_args example_runtime [VString "default"])
  /\ (let st := final_state (invoke example_runtime VNull "time" (live 1%float)
                               [VString "default"] fresh_state) in
      messages (invoke example_runtime VNull "timeEnd" (live 3%float) [] st)
      = messages (invoke example_runtime VNull "timeEnd" (live 3%float)
                    [VString "default"] st)
      /\ messages (invoke example_runtime VNull "timeEnd" (live 3%float) [] st)
         = [text_message 3%float kTimeEnd "default: 2.000000 ms"]).
Proof.
  assert (Hname : In "timeEnd"%string [ "count"; "countReset"; "time"; "timeEnd" ]%string)
    by (cbn; tauto).
  split; [by split|].
  cbv zeta. split; [|reflexivity].
  exact (proj1 (only_the_label_matters example_runtime VNull "timeEnd" (live 3%float)
                  [] [VString "default"] _ Hname eq_refl)).
Defined.

Lemma countMap_discipline_witness :
  let r := invoke example_runtime VNull "count" (live 1%float) [VString "a"]
             fresh_state in
  countMap (final_state r) !! "a"%string = Some 1
  /\ (is_Some (countMap fresh_state !! "a"%string)
      \/ ("count"%string = "count"%string
          /\ selfAlive (live 1%float) = true
          /\ label_of_args example_runtime [VString "a"] = Returns "a"%string
          /\ 1 = 1)).
Proof.
  cbv zeta. split; [reflexivity|].
  exact (proj1 (countMap_discipline example_runtime VNull "count" (live 1%float)
                  [VString "a"] fresh_state "a") 1 eq_refl).
Defined.

Lemma labels_and_tables_isolated_witness :
  let st := {| countMap := {["a"%string := 3]};
               timerTable := {["a"%string := 10%float]} |} in
  let st' := final_state (invoke example_runtime VNull "timeEnd" (live 20%float)
                            [VString "b"] st) in
  (label_of_args example_runtime [VString "b"] = Returns "b"%string
   /\ "b"%string <> "a"%string)
  /\ countMap st' !! "a"%string = countMap st !! "a"%string
  /\ timerTable st' !! "a"%string = timerTable st !! "a"%string.
Proof.
  cbv zeta.
  assert (Hne : "b"%string <> "a"%string) by discriminate.
  split; [by split|].
  exact (proj2 (proj2 (labels_and_tables_isolated example_runtime VNull "timeEnd"
                         (live 20%float) [VString "b"]
                         {| countMap := {["a"%string := 3]};
                            timerTable := {["a"%string := 10%float]} |}))
           "a"%string "b"%string eq_refl Hne).
Defined.
